(** * avr-sts-ultravox: the per-call duplex relay and its tool dispatcher

    A shallow embedding of [handleAudioStream] and [connectToUltravox] (the
    variant of index.js with tool dispatch and [callId] tracking), of
    [getToolHandler] and [loadTools] (loadTools.js), of the tool modules
    avrHangup.js and avrTransfer.js, and of storage.js and utils/api.js,
    together with the properties of the relay that the specification states
    and further properties of the code.

    JavaScript values are an inductive type, objects are finite maps from
    property names to values, listeners are computations in a small monad
    that threads the closure variables of [handleAudioStream], collects the
    externally visible actions (writes, sends, log lines) and propagates
    exceptions. *)

From Stdlib Require Import ZArith Lia Ascii String.
From stdpp Require Import base strings gmap list pretty.

Set Warnings "-register-all".
Local Open Scope Z_scope.

(** ** JavaScript values *)

Inductive val : Type :=
| VUndefined
| VNull
| VBool (b : bool)
| VNum (n : Z)
| VStr (s : string)
| VObj (fields : gmap string val)
| VArr (items : list val)
| VErr (name message : string).

(** An object literal with pairwise distinct keys. *)
Definition obj (l : list (string * val)) : val := VObj (list_to_map l).

(** [new Error(msg)], [TypeError], [SyntaxError], [ReferenceError]. *)
Definition Error (msg : string) : val := VErr "Error" msg.
Definition TypeError (msg : string) : val := VErr "TypeError" msg.
Definition ReferenceError (msg : string) : val := VErr "ReferenceError" msg.

(** The double quote character, for the literals of the source that
    contain it. *)
Definition dq : string := String (ascii_of_nat 34) EmptyString.

Definition typeof (v : val) : string :=
  match v with
  | VUndefined => "undefined"
  | VNull => "object"
  | VBool _ => "boolean"
  | VNum _ => "number"
  | VStr _ => "string"
  | VObj _ | VArr _ | VErr _ _ => "object"
  end.

(** ToBoolean, as used by [!x], [x && y] and [c ? a : b]. *)
Definition truthy (v : val) : bool :=
  match v with
  | VUndefined | VNull => false
  | VBool b => b
  | VNum n => negb (n =? 0)
  | VStr s => negb (String.eqb s EmptyString)
  | VObj _ | VArr _ | VErr _ _ => true
  end.

(** The string that ToString gives for a value, when it gives one (see
    [has_string_form] below).  Numbers are the integers, printed in decimal,
    as JavaScript prints an integer below 10^21. *)
Fixpoint ToString (v : val) : string :=
  match v with
  | VUndefined => "undefined"
  | VNull => "null"
  | VBool true => "true"
  | VBool false => "false"
  | VNum n => pretty n
  | VStr s => s
  | VObj _ => "[object Object]"
  | VArr items =>
      let element x :=
        match x with
        | VUndefined | VNull => EmptyString
        | _ => ToString x
        end in
      (fix join (l : list val) : string :=
         match l with
         | [] => EmptyString
         | [x] => element x
         | x :: rest => element x +:+ "," +:+ join rest
         end) items
  | VErr name message =>
      if String.eqb name EmptyString then message
      else if String.eqb message EmptyString then name
      else name +:+ ": " +:+ message
  end.

(** The result of evaluating an expression or a statement list: a value, or
    an exception on its way to the nearest [catch]. *)
Inductive completion (A : Type) : Type :=
| Normal (a : A)
| Throw (e : val).
Arguments Normal {A} a.
Arguments Throw {A} e.

(** The values that ToString converts.  An object with an own property
    [toString] is not one of them: no value of [val] is a function, so the
    property cannot be called, the inherited [valueOf] returns the object
    itself, and the conversion throws a TypeError.  [JSON.parse] makes such
    an object of a text like [{"toString":null}].  An array joins the string
    forms of its elements. *)
Fixpoint has_string_form (v : val) : bool :=
  match v with
  | VObj fields =>
      match fields !! "toString" with Some _ => false | None => true end
  | VArr items => forallb has_string_form items
  | _ => true
  end.

(** A substitution [${v}] of a template literal: ToString, which throws for
    a value that has no string form. *)
Definition template (v : val) : completion string :=
  if has_string_form v then Normal (ToString v)
  else Throw (TypeError "Cannot convert object to primitive value").

(** The value that [o.k] reads from the properties of an object. *)
Definition field (fields : gmap string val) (k : string) : val :=
  default VUndefined (fields !! k).

(** Property read [v.k].  Reading a property of [undefined] or [null]
    throws; a property that is absent reads as [undefined].  Array indices
    and prototype methods are not modelled: the relay reads none. *)
Definition member (v : val) (k : string) : completion val :=
  match v with
  | VUndefined | VNull =>
      Throw (TypeError ("Cannot read properties of " +:+ ToString v +:+
                        " (reading '" +:+ k +:+ "')"))
  | VObj fields => Normal (field fields k)
  | VErr name message =>
      Normal (if String.eqb k "name" then VStr name
              else if String.eqb k "message" then VStr message
              else VUndefined)
  | VStr s =>
      Normal (if String.eqb k "length" then VNum (Z.of_nat (String.length s))
              else VUndefined)
  | VArr items =>
      Normal (if String.eqb k "length" then VNum (Z.of_nat (length items))
              else VUndefined)
  | VBool _ | VNum _ => Normal VUndefined
  end.

(** The own enumerable properties that an object spread [{...v}] copies. *)
Definition own_enumerable (v : val) : gmap string val :=
  match v with
  | VObj fields => fields
  | VArr items =>
      list_to_map (imap (λ i x, (pretty (Z.of_nat i), x)) items)
  | VStr s =>
      list_to_map
        (imap (λ i c, (pretty (Z.of_nat i), VStr (String c EmptyString)))
              (list_ascii_of_string s))
  | _ => ∅
  end.

(** [v === 'literal'] *)
Definition is_string (v : val) (s : string) : bool :=
  match v with VStr s' => String.eqb s' s | _ => false end.

(** ** The relay's observable actions *)

Inductive Action : Type :=
| ConsoleLog (args : list val)
| ConsoleError (args : list val)
| ResWrite (chunk : list Byte.byte)       (* res.write(buffer) *)
| ResEnd                             (* res.end() *)
| WsSendJSON (message : val)         (* ultravoxWebSocket.send(JSON.stringify(message)) *)
| WsSendAudio (chunk : list Byte.byte)    (* ultravoxWebSocket.send(audioChunk) *)
| WsClose                            (* ultravoxWebSocket.close() *)
| InvokeHandler (uuid params : val)  (* handler(uuid, message.parameters) is called *)
| UnhandledRejection (reason : val)  (* the promise of an async listener rejects *)
| UncaughtException (e : val).       (* a synchronous listener throws *)

(** ** The closure variables of [handleAudioStream] *)

Record Session : Type := mkSession {
  ultravoxChunksQueue : list Byte.byte;
  isFirstUltravoxChunk : bool;
  ultravoxStartTime : option Z;      (* null, or the reading of Date.now() *)
  callId : val
}.

Definition initial : Session :=
  {| ultravoxChunksQueue := [];
     isFirstUltravoxChunk := true;
     ultravoxStartTime := None;
     callId := VNull |}.

Definition set_queue (q : list Byte.byte) (s : Session) : Session :=
  {| ultravoxChunksQueue := q;
     isFirstUltravoxChunk := isFirstUltravoxChunk s;
     ultravoxStartTime := ultravoxStartTime s;
     callId := callId s |}.

Definition set_isFirst (b : bool) (s : Session) : Session :=
  {| ultravoxChunksQueue := ultravoxChunksQueue s;
     isFirstUltravoxChunk := b;
     ultravoxStartTime := ultravoxStartTime s;
     callId := callId s |}.

Definition set_startTime (t : option Z) (s : Session) : Session :=
  {| ultravoxChunksQueue := ultravoxChunksQueue s;
     isFirstUltravoxChunk := isFirstUltravoxChunk s;
     ultravoxStartTime := t;
     callId := callId s |}.

Definition set_callId (v : val) (s : Session) : Session :=
  {| ultravoxChunksQueue := ultravoxChunksQueue s;
     isFirstUltravoxChunk := isFirstUltravoxChunk s;
     ultravoxStartTime := ultravoxStartTime s;
     callId := v |}.

(** ** Listener bodies as computations *)

Record Outcome (A : Type) : Type := mkOutcome {
  post : Session;
  emitted : list Action;
  result : completion A
}.
Arguments mkOutcome {A} post emitted result.
Arguments post {A} o.
Arguments emitted {A} o.
Arguments result {A} o.

Definition Js (A : Type) : Type := Session → Outcome A.

#[global] Instance Js_ret : MRet Js :=
  λ A a s, mkOutcome s [] (Normal a).

#[global] Instance Js_bind : MBind Js :=
  λ A B k m s,
    match m s with
    | mkOutcome s1 acts1 (Normal a) =>
        match k a s1 with
        | mkOutcome s2 acts2 r => mkOutcome s2 (acts1 ++ acts2) r
        end
    | mkOutcome s1 acts1 (Throw e) => mkOutcome s1 acts1 (Throw e)
    end.

Definition gets {A : Type} (f : Session → A) : Js A :=
  λ s, mkOutcome s [] (Normal (f s)).

Definition modify (f : Session → Session) : Js unit :=
  λ s, mkOutcome (f s) [] (Normal ()).

Definition emit (a : Action) : Js unit :=
  λ s, mkOutcome s [a] (Normal ()).

Definition throw {A : Type} (e : val) : Js A :=
  λ s, mkOutcome s [] (Throw e).

(** An expression that may throw, evaluated inside a listener. *)
Definition eval {A : Type} (c : completion A) : Js A :=
  λ s, mkOutcome s [] c.

(** [try { body } catch (e) { handler e }]: assignments and actions made by
    [body] before it threw are kept. *)
Definition try_catch {A : Type} (body : Js A) (handler : val → Js A) : Js A :=
  λ s,
    match body s with
    | mkOutcome s1 acts1 (Normal a) => mkOutcome s1 acts1 (Normal a)
    | mkOutcome s1 acts1 (Throw e) =>
        match handler e s1 with
        | mkOutcome s2 acts2 r => mkOutcome s2 (acts1 ++ acts2) r
        end
    end.

Definition console_log (args : list val) : Js unit := emit (ConsoleLog args).
Definition console_error (args : list val) : Js unit := emit (ConsoleError args).

(** ** Outbound audio: the binary branch of the ['message'] listener *)

(** The two readings of [Date.now()] that the binary branch can take while
    it handles one frame: at the assignment of [ultravoxStartTime] and in
    the flush test. *)
Record Clock : Type := mkClock { at_mark : Z; at_check : Z }.

(** [ultravoxStartTime && Date.now() - ultravoxStartTime >= 100] *)
Definition window_elapsed (startTime : option Z) (now : Z) : bool :=
  match startTime with
  | None => false
  | Some t => negb (t =? 0) && (100 <=? now - t)
  end.

Definition onBinaryMessage (data : list Byte.byte) (clock : Clock) : Js unit :=
  first ← gets isFirstUltravoxChunk;
  (if first : bool then
     modify (set_startTime (Some (at_mark clock)));;
     modify (set_isFirst false);;
     console_log [VStr "First Ultravox audio chunk received, starting delay..."]
   else mret ());;
  queue ← gets ultravoxChunksQueue;
  modify (set_queue (queue ++ data));;
  startTime ← gets ultravoxStartTime;
  if window_elapsed startTime (at_check clock) then
    bufferToWrite ← gets ultravoxChunksQueue;
    modify (set_queue []);;
    emit (ResWrite bufferToWrite)
  else mret ().

(** ** Tool modules and handlers *)

(** A handler is an async function of [(uuid, parameters)]: its promise is
    fulfilled with a value or rejected with a reason.  The model covers the
    handlers whose promise settles. *)
Inductive settled : Type :=
| Fulfilled (v : val)
| Rejected (reason : val).

Definition Handler : Type := val → val → settled.

(** What a tool module exports under [handler]: a function, or any other
    value ([undefined] when the export is absent). *)
Inductive export : Type :=
| ExportFunction (f : Handler)
| ExportValue (v : val).

Record ToolModule : Type := mkToolModule {
  tool_name : val;
  tool_description : val;
  tool_parameters : val;
  tool_handler : export
}.

(** [!handler] is [negb (export_truthy handler)]. *)
Definition export_truthy (h : export) : bool :=
  match h with
  | ExportFunction _ => true
  | ExportValue v => truthy v
  end.

(** The two directories that [getToolHandler] probes. *)
Inductive ToolDir : Type := Dir_avr_tools | Dir_tools.

(** ** Identifiers in scope of the listeners of [handleAudioStream] *)

Definition module_bindings : list string :=
  [ "express"; "axios"; "WebSocket"; "config"; "loadTools";
    "loadDurableTools"; "getToolHandler"; "beforeCall"; "app";
    "ULTRAVOX_SAMPLE_RATE"; "ULTRAVOX_API_BASE_URL";
    "ULTRAVOX_CLIENT_BUFFER_SIZE_MS"; "setupUltravox"; "connectToUltravox";
    "handleAudioStream"; "PORT" ]%string.

Definition handleAudioStream_bindings : list string :=
  [ "req"; "res"; "uuid"; "ultravoxWebSocket"; "ultravoxChunksQueue";
    "isFirstUltravoxChunk"; "ultravoxStartTime"; "callId" ]%string.

(** The names of the module wrapper and of the global object that the file
    uses.  Node's global object has no property [interval]. *)
Definition node_bindings : list string :=
  [ "require"; "module"; "exports"; "__dirname"; "__filename"; "process";
    "console"; "JSON"; "Date"; "Buffer"; "Object"; "Error";
    "clearInterval" ]%string.

(** Evaluating an identifier that no enclosing scope binds throws a
    ReferenceError.  The value of a bound identifier is not needed by the
    model and is left out. *)
Definition resolve_identifier (locals : list string) (x : string) : Js unit :=
  if bool_decide (x ∈ locals ++ handleAudioStream_bindings ++
                        module_bindings ++ node_bindings)
  then mret ()
  else throw (ReferenceError (x +:+ " is not defined")).

(** [ultravoxWebSocket.readyState], as read by the ['data'] listener. *)
Inductive ReadyState : Type := CONNECTING | OPEN | CLOSING | CLOSED.

Definition is_OPEN (r : ReadyState) : bool :=
  match r with OPEN => true | _ => false end.

(** What the listeners take from their surroundings: the runtime's
    [JSON.parse] (a value, or a thrown SyntaxError), [JSON.stringify] and
    [String.prototype.toUpperCase]; the files of [avr_tools/] and [tools/],
    by file name, with the module that [require] returns for each; and
    [req.headers['x-uuid']]. *)
Record Environment : Type := mkEnvironment {
  JSON_parse : string → completion val;
  JSON_stringify : val → string;
  toUpperCase : string → string;
  avr_tools : gmap string ToolModule;
  tools : gmap string ToolModule;
  uuid : val
}.

Section Relay.

Variable env : Environment.

(** *** loadTools.js: [getToolHandler] *)

Definition directory (d : ToolDir) : gmap string ToolModule :=
  match d with
  | Dir_avr_tools => avr_tools env
  | Dir_tools => tools env
  end.

(** [fs.access(filePath)] succeeds. *)
Definition fs_access (p : ToolDir * string) : bool :=
  bool_decide (is_Some (directory p.1 !! p.2)).

(** The [for] loop over [possiblePaths]: the first path that can be
    accessed, if any. *)
Fixpoint first_accessible (paths : list (ToolDir * string))
  : option (ToolDir * string) :=
  match paths with
  | [] => None
  | filePath :: rest =>
      if fs_access filePath then Some filePath else first_accessible rest
  end.

(** The template literals [`${name}.js`] convert [name] before any file is
    looked for. *)
Definition getToolHandler (name : val) : completion export :=
  match template name with
  | Throw e => Throw e
  | Normal text =>
      let possiblePaths :=
        [ (Dir_avr_tools, text +:+ ".js");
          (Dir_tools, text +:+ ".js") ] in
      match first_accessible possiblePaths with
      | None =>
          Throw (Error ("Tool " +:+ dq +:+ text +:+ dq +:+
                        " not found in any available directory"))
      | Some toolPath =>
          match directory toolPath.1 !! toolPath.2 with
          | Some tool => Normal (tool_handler tool)
          | None => Throw (Error ("Cannot find module " +:+ toolPath.2))
          end
      end
  end.

(** *** index.js: the [client_tool_invocation] case *)

Definition send_json (message : val) : Js unit := emit (WsSendJSON message).

(** [await handler(uuid, parameters)] *)
Definition call_handler (handler : export) (parameters : val) : Js val :=
  match handler with
  | ExportFunction f =>
      emit (InvokeHandler (uuid env) parameters);;
      match f (uuid env) parameters with
      | Fulfilled v => mret v
      | Rejected reason => throw reason
      end
  | ExportValue _ => throw (TypeError "handler is not a function")
  end.

Definition contract_violation_message : string :=
  "Client tool result must be a string or an object with string " +:+
  dq +:+ "result" +:+ dq +:+ " and " +:+ dq +:+ "responseType" +:+ dq +:+
  " properties.".

(** [typeof result.result !== 'string' || typeof result.responseType !== 'string'] *)
Definition shape_rejected (result : val) : Js bool :=
  r ← eval (member result "result");
  if negb (String.eqb (typeof r) "string") then mret true
  else
    rt ← eval (member result "responseType");
    mret (negb (String.eqb (typeof rt) "string")).

(** The body of the [try] block. *)
Definition tool_try (message invocationId toolName : val) : Js unit :=
  handler ← eval (getToolHandler toolName);
  if negb (export_truthy handler) then
    name ← eval (template toolName);
    console_error [VStr ("No handler found for tool: " +:+ name)];;
    name ← eval (template toolName);
    send_json (obj [ ("type", VStr "client_tool_result");
                     ("invocationId", invocationId);
                     ("errorType", VStr "undefined");
                     ("errorMessage",
                      VStr ("Client tool " +:+ name +:+
                            " is not registered")) ])
  else
    name ← eval (template toolName);
    parameters ← eval (member message "parameters");
    console_log [VStr (">> Tool call: " +:+ name); uuid env; parameters];;
    result ← call_handler handler parameters;
    if String.eqb (typeof result) "string" then
      name ← eval (template toolName);
      console_log [VStr (">> Tool response: " +:+ name +:+ " ->"); result];;
      send_json (obj [ ("type", VStr "client_tool_result");
                       ("result", result);
                       ("responseType", VStr "tool-response");
                       ("invocationId", invocationId) ])
    else
      rejected ← shape_rejected result;
      if rejected : bool then
        send_json (obj [ ("type", VStr "client_tool_result");
                         ("errorType", VStr "implementation-error");
                         ("errorMessage", VStr contract_violation_message);
                         ("responseType", VStr "tool-response");
                         ("invocationId", invocationId) ])
      else
        name ← eval (template toolName);
        console_log
          [VStr (">> Tool response: " +:+ name +:+ " ->");
           VStr (JSON_stringify env result)];;
        send_json
          (VObj (<["invocationId" := invocationId]>
                   (own_enumerable result ∪
                    {["type" := VStr "client_tool_result"]}))).

(** The body of the [catch (toolError)] block. *)
Definition tool_catch (message invocationId toolError : val) : Js unit :=
  response ← eval (member toolError "response");
  errorMessage ←
    (if truthy response then eval (member response "data")
     else mret toolError);
  toolName ← eval (member message "toolName");
  name ← eval (template toolName);
  console_error
    [VStr ("[Error executing tool " +:+ name +:+ ":"); errorMessage];;
  send_json (obj [ ("type", VStr "client_tool_result");
                   ("responseType", VStr "tool-response");
                   ("errorType", VStr "implementation-error");
                   ("errorMessage", errorMessage);
                   ("invocationId", invocationId) ]).

Definition onToolInvocation (message : val) : Js unit :=
  invocationId ← eval (member message "invocationId");
  toolName ← eval (member message "toolName");
  try_catch (tool_try message invocationId toolName)
            (tool_catch message invocationId).

(** *** index.js: the ['message'] listener *)

(** [message.role.toUpperCase()] *)
Definition call_toUpperCase (role : val) : completion string :=
  match role with
  | VStr s => Normal (toUpperCase env s)
  | VUndefined | VNull =>
      Throw (TypeError ("Cannot read properties of " +:+ ToString role +:+
                        " (reading 'toUpperCase')"))
  | _ => Throw (TypeError "message.role.toUpperCase is not a function")
  end.

Definition onTextMessage (data : list Byte.byte) : Js unit :=
  message ← eval (JSON_parse env (string_of_list_byte data));
  type ← eval (member message "type");
  if is_string type "call_started" then
    id ← eval (member message "callId");
    console_log [VStr "Call started"; id];;
    modify (set_callId id)
  else if is_string type "state" then
    state ← eval (member message "state");
    id ← gets callId;
    console_log [VStr "State"; state; id]
  else if is_string type "client_tool_invocation" then
    onToolInvocation message
  else if is_string type "transcript" then
    final ← eval (member message "final");
    if truthy final then
      role ← eval (member message "role");
      upper ← eval (call_toUpperCase role);
      medium ← eval (member message "medium");
      medium ← eval (template medium);
      text ← eval (member message "text");
      text ← eval (template text);
      console_log [VStr (upper +:+ " (" +:+ medium +:+ "): " +:+ text)]
    else mret ()
  else if is_string type "playback_clear_buffer" then
    console_log [VStr "Playback clear buffer"]
  else if is_string type "error" then
    console_error [VStr "Error"; message]
  else
    console_log [VStr "Received message type:"; type].

Definition onMessage (data : list Byte.byte) (isBinary : bool) (clock : Clock)
  : Js unit :=
  if isBinary then onBinaryMessage data clock else onTextMessage data.

(** *** index.js: the other listeners *)

Definition onWsOpen : Js unit :=
  console_log [VStr "WebSocket connected to Ultravox"].

Definition onWsClose : Js unit :=
  console_log [VStr "WebSocket connection closed"];;
  emit ResEnd.

Definition onWsError (err : val) : Js unit :=
  console_error [VStr "WebSocket error:"; err];;
  emit ResEnd.

Definition onReqData (audioChunk : list Byte.byte) (readyState : ReadyState)
  : Js unit :=
  if is_OPEN readyState then emit (WsSendAudio audioChunk) else mret ().

Definition onReqEnd : Js unit :=
  console_log [VStr "Request stream ended"];;
  emit WsClose.

(** [clearInterval(interval)] evaluates its argument first. *)
Definition onReqError (err : val) : Js unit :=
  console_error [VStr "Request error:"; err];;
  resolve_identifier ["err"%string] "interval";;
  emit WsClose.

(** *** The session as a machine driven by events *)

Inductive Event : Type :=
| WsOpen
| WsMessage (data : list Byte.byte) (isBinary : bool) (clock : Clock)
| WsClosed
| WsError (err : val)
| ReqData (audioChunk : list Byte.byte) (readyState : ReadyState)
| ReqEnd
| ReqError (err : val).

(** An [async] listener returns a promise that nobody awaits: an exception
    that escapes it becomes an unhandled rejection. *)
Definition run_async (listener : Js unit) (s : Session)
  : Session * list Action :=
  match listener s with
  | mkOutcome s1 acts (Normal _) => (s1, acts)
  | mkOutcome s1 acts (Throw e) => (s1, acts ++ [UnhandledRejection e])
  end.

(** An exception that escapes a synchronous listener is thrown out of
    [emit]: an uncaught exception. *)
Definition run_sync (listener : Js unit) (s : Session)
  : Session * list Action :=
  match listener s with
  | mkOutcome s1 acts (Normal _) => (s1, acts)
  | mkOutcome s1 acts (Throw e) => (s1, acts ++ [UncaughtException e])
  end.

(** One event runs one listener.  The tool branch of the ['message']
    listener suspends at its [await]s; it reads and writes none of the buffer
    variables, so taking it as one step changes only the order in which the
    replies of overlapping invocations are sent. *)
Definition step (ev : Event) : Session → Session * list Action :=
  match ev with
  | WsOpen => run_sync onWsOpen
  | WsMessage data isBinary clock => run_async (onMessage data isBinary clock)
  | WsClosed => run_sync onWsClose
  | WsError err => run_sync (onWsError err)
  | ReqData audioChunk readyState => run_async (onReqData audioChunk readyState)
  | ReqEnd => run_sync onReqEnd
  | ReqError err => run_sync (onReqError err)
  end.

(** The actions of a sequence of events, one list per event, and the state
    that they leave. *)
Fixpoint run (evs : list Event) (s : Session)
  : Session * list (list Action) :=
  match evs with
  | [] => (s, [])
  | ev :: rest =>
      let now := step ev s in
      let later := run rest now.1 in
      (later.1, now.2 :: later.2)
  end.

End Relay.

(** ** Observations on the actions of a run *)

(** The buffers written to the caller response stream, in order. *)
Definition written (acts : list Action) : list (list Byte.byte) :=
  omap (λ a, match a with ResWrite chunk => Some chunk | _ => None end) acts.

(** The control messages sent over the backend channel, in order. *)
Definition sent (acts : list Action) : list val :=
  omap (λ a, match a with WsSendJSON m => Some m | _ => None end) acts.

(** The handler calls, in order. *)
Definition invoked (acts : list Action) : list (val * val) :=
  omap (λ a, match a with InvokeHandler u p => Some (u, p) | _ => None end)
       acts.

(** The log lines, on either console channel. *)
Definition logged (acts : list Action) : list (list val) :=
  omap (λ a, match a with
             | ConsoleLog args | ConsoleError args => Some args
             | _ => None
             end) acts.

(** The exceptions that escaped a listener. *)
Definition escaped (acts : list Action) : list val :=
  omap (λ a, match a with
             | UnhandledRejection e | UncaughtException e => Some e
             | _ => None
             end) acts.

(** The binary backend frames among the events, with their clock readings. *)
Definition binary_frames (evs : list Event) : list (list Byte.byte * Clock) :=
  omap (λ ev, match ev with
              | WsMessage data true clock => Some (data, clock)
              | _ => None
              end) evs.

(** For each binary frame of a run, its clock readings and whether its
    arrival wrote to the caller stream. *)
Fixpoint flush_log (evs : list Event) (trace : list (list Action))
  : list (Clock * bool) :=
  match evs, trace with
  | WsMessage _ true clock :: evs', acts :: trace' =>
      (clock, bool_decide (written acts ≠ [])) :: flush_log evs' trace'
  | _ :: evs', _ :: trace' => flush_log evs' trace'
  | _, _ => []
  end.

(** The part of the session that the binary branch owns. *)
Definition audio_state (s : Session) : list Byte.byte * bool * option Z :=
  (ultravoxChunksQueue s, isFirstUltravoxChunk s, ultravoxStartTime s).

(** A computation that leaves that part as it is and writes nothing to the
    caller. *)
Definition audio_neutral {A : Type} (m : Js A) : Prop :=
  ∀ s, audio_state (post (m s)) = audio_state s ∧ written (emitted (m s)) = [].

(** The reference point that the flush test of a run compares against: the
    one already recorded, or the reading at the run's first binary frame. *)
Definition reference (s : Session) (frames : list (list Byte.byte * Clock))
  : option Z :=
  if isFirstUltravoxChunk s then
    match frames with
    | [] => ultravoxStartTime s
    | frame :: _ => Some (at_mark frame.2)
    end
  else ultravoxStartTime s.

(** ** The replies of the dispatcher *)

(** The error that [getToolHandler] throws for a tool without a file. *)
Definition not_found (name : val) : val :=
  Error ("Tool " +:+ dq +:+ ToString name +:+ dq +:+
         " not found in any available directory").

(** The reply of the [catch] block. *)
Definition error_reply (errorMessage invocationId : val) : val :=
  obj [ ("type", VStr "client_tool_result");
        ("responseType", VStr "tool-response");
        ("errorType", VStr "implementation-error");
        ("errorMessage", errorMessage);
        ("invocationId", invocationId) ].

(** The reply to a result of the wrong shape. *)
Definition violation_reply (invocationId : val) : val :=
  obj [ ("type", VStr "client_tool_result");
        ("errorType", VStr "implementation-error");
        ("errorMessage", VStr contract_violation_message);
        ("responseType", VStr "tool-response");
        ("invocationId", invocationId) ].

(** The handler's settlement that an invocation waits for, when the tool
    resolves to a function. *)
Definition handler_settlement (env : Environment) (fields : gmap string val)
  : option settled :=
  match getToolHandler env (field fields "toolName") with
  | Normal (ExportFunction f) =>
      Some (f (uuid env) (field fields "parameters"))
  | _ => None
  end.

(** ** The specification's statements, in its own words *)

(** "A timer reference point is recorded on the first binary frame following
    the previous flush (or the start of the session) ... every flush occurs
    only after >= 100 ms have elapsed since the first frame following the
    previous flush."  [pending] is the reference point of the window that is
    open, if one is. *)
Fixpoint window_respected (pending : option Z) (log : list (Clock * bool))
  : Prop :=
  match log with
  | [] => True
  | (clock, flushed) :: rest =>
      let ref := default (at_mark clock) pending in
      if flushed : bool
      then 100 ≤ at_check clock - ref ∧ window_respected None rest
      else window_respected (Some ref) rest
  end.

(** "The total bytes flushed to the caller equals the total bytes
    received." *)
Definition all_bytes_flushed (evs : list Event) (trace : list (list Action))
  : Prop :=
  length (concat (written (concat trace))) =
  length (concat ((binary_frames evs).*1)).

(** "Dispatch produces an error result message with errorType = undefined
    and an error message naming the missing tool, and no handler is ever
    invoked." *)
Definition reported_undefined (toolName : string) (acts : list Action) : Prop :=
  invoked acts = [] ∧
  ∃ m text,
    sent acts = [m] ∧
    member m "errorType" = Normal (VStr "undefined") ∧
    member m "errorMessage" = Normal (VStr text) ∧
    ∃ before after, text = before +:+ toolName +:+ after.

(** "Dispatch sends an error result with errorType = implementation-error
    whose errorMessage is exactly the fixed diagnostic." *)
Definition reported_violation (diagnostic : string) (acts : list Action)
  : Prop :=
  ∃ m,
    sent acts = [m] ∧
    member m "errorType" = Normal (VStr "implementation-error") ∧
    member m "errorMessage" = Normal (VStr diagnostic).

(** "Exactly one client_tool_result message is sent back over the backend
    channel, and that message always contains the invocationId of the
    invocation it answers." *)
Definition one_result_sent (invocationId : val) (acts : list Action) : Prop :=
  ∃ m,
    sent acts = [m] ∧
    member m "type" = Normal (VStr "client_tool_result") ∧
    member m "invocationId" = Normal invocationId.

(** "Dispatch accepts it as a success result rather than rejecting it as a
    contract violation." *)
Definition accepted_as_success (acts : list Action) : Prop :=
  ∃ m, sent acts = [m] ∧ member m "errorType" = Normal VUndefined.

(** "Processing the frame does not crash or terminate the session: the frame
    is discarded as a no-op (with only an observability signal)."  No
    exception leaves the listener, the session is as before, and nothing but
    log lines is produced. *)
Definition discarded_quietly (s : Session) (now : Session * list Action)
  : Prop :=
  now.1 = s ∧ escaped now.2 = [] ∧ length (logged now.2) = length now.2.

(** "Caller stream transport error closes the backend channel." *)
Definition closes_backend (acts : list Action) : Prop := WsClose ∈ acts.

(** The diagnostic of a contract violation, as the specification quotes it. *)
Definition spec_contract_diagnostic : string :=
  "tool result must be a string or an object with string result and responseType properties.".

(** ** The tool modules of the repository *)

#[global] Instance completion_ret : MRet completion := λ A a, Normal a.

#[global] Instance completion_bind : MBind completion :=
  λ A B k c, match c with Normal a => k a | Throw e => Throw e end.

(** [process.env.AMI_URL || 'http://127.0.0.1:6006'] *)
Definition ami_url (AMI_URL : val) : val :=
  if truthy AMI_URL then AMI_URL else VStr "http://127.0.0.1:6006".

(** The [catch] blocks of both handlers:
    [return `Error during <what>: ${error.message}`].  An exception of the
    block itself rejects the promise of the handler. *)
Definition error_during (what : string) (error : val) : settled :=
  match message ← member error "message"; template message with
  | Normal text =>
      Fulfilled (VStr ("Error during " +:+ what +:+ ": " +:+ text))
  | Throw e => Rejected e
  end.

Section ToolBodies.

(** [process.env.AMI_URL], and [axios.post(url, body)]: the response, or the
    error that the request rejects with. *)
Variable AMI_URL : val.
Variable axios_post : string → val → completion val.

(** avr_tools/avrHangup.js *)
Definition avrHangup_handler : Handler :=
  λ uuid _,
    let url := ami_url AMI_URL in
    match
      url ← template url;
      res ← axios_post (url +:+ "/hangup") (obj [("uuid", uuid)]);
      data ← member res "data";
      message ← member data "message";
      mret (obj [ ("responseText", message);
                  ("responseType", VStr "tool-response") ])
    with
    | Normal v => Fulfilled v
    | Throw error => error_during "hangup" error
    end.

Definition avrHangup : ToolModule :=
  {| tool_name := VStr "avrHangup";
     tool_description := VStr "Ends the conversation";
     tool_parameters := VArr [];
     tool_handler := ExportFunction avrHangup_handler |}.

(** [a || b] on values. *)
Definition or_else (a b : val) : val := if truthy a then a else b.

(** avr_tools/avrTransfer.js.  The parameter list destructures its second
    argument, which throws before the [try] when there is none. *)
Definition avrTransfer_handler : Handler :=
  λ uuid parameters,
    match
      transfer_extension ← member parameters "transfer_extension";
      transfer_context ← member parameters "transfer_context";
      transfer_priority ← member parameters "transfer_priority";
      mret (transfer_extension, transfer_context, transfer_priority)
    with
    | Throw e => Rejected e
    | Normal (transfer_extension, transfer_context, transfer_priority) =>
        match
          url ← template (ami_url AMI_URL);
          res ← axios_post (url +:+ "/transfer")
                  (obj [ ("uuid", uuid);
                         ("exten", transfer_extension);
                         ("context", or_else transfer_context (VStr "demo"));
                         ("priority", or_else transfer_priority (VNum 1)) ]);
          data ← member res "data";
          member data "message"
        with
        | Normal message => Fulfilled message
        | Throw error => error_during "transfer" error
        end
    end.

Definition avrTransfer_parameter
           (name type description : string) (required : list (string * val))
  : val :=
  obj ([ ("name", VStr name);
         ("location", VStr "PARAMETER_LOCATION_BODY");
         ("schema", obj [ ("type", VStr type);
                          ("description", VStr description) ]) ] ++ required).

Definition avrTransfer : ToolModule :=
  {| tool_name := VStr "avrTransfer";
     tool_description := VStr "Transfers a call to a specific extension.";
     tool_parameters :=
       VArr [ avrTransfer_parameter
                "transfer_extension" "integer"
                "The transfer extension to transfer the call to."
                [("required", VBool true)];
              avrTransfer_parameter
                "transfer_context" "string"
                "The context to transfer the call to." [];
              avrTransfer_parameter
                "transfer_priority" "integer"
                "The priority of the transfer." [] ];
     tool_handler := ExportFunction avrTransfer_handler |}.

End ToolBodies.

(** ** A concrete environment for the examples *)

(** [JSON.parse] on the texts that the examples use: a few literals, and
    text that is not JSON. *)
Definition sample_JSON_parse (text : string) : completion val :=
  if String.eqb text "null" then Normal VNull
  else if String.eqb text "true" then Normal (VBool true)
  else if String.eqb text "{}" then Normal (VObj ∅)
  else if String.eqb text "[]" then Normal (VArr [])
  else Throw (VErr "SyntaxError" ("Unexpected token in JSON: " +:+ text)).

(** An AMI bridge that answers every request with a message. *)
Definition sample_axios_post (url : string) (body : val) : completion val :=
  Normal (obj [("data", obj [("message", VStr "Call ended")])]).

(** A tool whose handler returns a structured result with fields of its
    own, one of them named [invocationId]. *)
Definition lookup_handler : Handler :=
  λ _ _, Fulfilled (obj [ ("result", VStr "42");
                          ("responseType", VStr "tool-response");
                          ("agentReaction", VStr "speaks");
                          ("invocationId", VStr "forged") ]).

(** A tool whose structured result names its own [type]. *)
Definition retype_handler : Handler :=
  λ _ _, Fulfilled (obj [ ("result", VStr "ok");
                          ("responseType", VStr "tool-response");
                          ("type", VStr "ping") ]).

(** A tool whose handler greets the caller with a plain string. *)
Definition greet_handler : Handler :=
  λ uuid _, Fulfilled (VStr ("hello " +:+ ToString uuid)).

(** A tool whose handler returns nothing. *)
Definition silent_handler : Handler := λ _ _, Fulfilled VUndefined.

(** A tool whose handler returns an object with no properties. *)
Definition empty_handler : Handler := λ _ _, Fulfilled (obj []).

(** A tool whose handler ends in [Promise.reject()]. *)
Definition abort_handler : Handler := λ _ _, Rejected VUndefined.

Definition sample_tool (name : string) (f : Handler) : ToolModule :=
  {| tool_name := VStr name;
     tool_description := VStr "sample";
     tool_parameters := VArr [];
     tool_handler := ExportFunction f |}.

(** [toUpperCase] on ASCII text. *)
Fixpoint sample_toUpperCase (s : string) : string :=
  match s with
  | EmptyString => EmptyString
  | String c rest =>
      let n := nat_of_ascii c in
      String (if (97 <=? n)%nat && (n <=? 122)%nat
              then ascii_of_nat (n - 32) else c)
             (sample_toUpperCase rest)
  end.

Definition sample_env : Environment :=
  {| JSON_parse := sample_JSON_parse;
     JSON_stringify := λ _, "{}";
     toUpperCase := sample_toUpperCase;
     avr_tools :=
       list_to_map
         [ ("avrHangup.js", avrHangup VUndefined sample_axios_post);
           ("avrTransfer.js", avrTransfer VUndefined sample_axios_post) ];
     tools := list_to_map
                [ ("lookup.js", sample_tool "lookup" lookup_handler);
                  ("retype.js", sample_tool "retype" retype_handler);
                  ("greet.js", sample_tool "greet" greet_handler);
                  ("silent.js", sample_tool "silent" silent_handler);
                  ("empty.js", sample_tool "empty" empty_handler);
                  ("abort.js", sample_tool "abort" abort_handler) ];
     uuid := VStr "abc" |}.

(** A [client_tool_invocation] message for a tool, with invocation
    identifier ["inv-1"] and no parameters. *)
Definition invocation_of (toolName : string) : gmap string val :=
  list_to_map [ ("type", VStr "client_tool_invocation");
                ("invocationId", VStr "inv-1");
                ("toolName", VStr toolName);
                ("parameters", obj []) ].

(** Three binary frames: the first of the session, one 100 ms later, one a
    further millisecond later. *)
Definition three_frames : list Event :=
  [ WsMessage [Byte.x01] true (mkClock 1000 1000);
    WsMessage [Byte.x02] true (mkClock 1100 1100);
    WsMessage [Byte.x03] true (mkClock 1101 1101) ].

(** One binary frame, after which the backend channel closes. *)
Definition one_frame_then_close : list Event :=
  [ WsMessage [Byte.x01] true (mkClock 1000 1000); WsClosed ].

(** ** Further observations *)

(** The audio chunks forwarded to the backend channel, in order. *)
Definition forwarded (acts : list Action) : list (list Byte.byte) :=
  omap (λ a, match a with WsSendAudio chunk => Some chunk | _ => None end)
       acts.

(** The caller chunks that arrive while the backend channel is open. *)
Definition chunks_while_open (evs : list Event) : list (list Byte.byte) :=
  omap (λ ev, match ev with
              | ReqData audioChunk OPEN => Some audioChunk
              | _ => None
              end) evs.

(** Every action of a computation satisfies [P]. *)
Definition emits_only (P : Action → Prop) {A : Type} (m : Js A) : Prop :=
  ∀ s, Forall P (emitted (m s)).

(** Actions that end one of the two legs. *)
Definition ends_a_leg (a : Action) : Prop := a = ResEnd ∨ a = WsClose.

(** The [callId] that an event announces: the one of a [call_started]
    control frame. *)
Definition announced_callId (env : Environment) (ev : Event) : option val :=
  match ev with
  | WsMessage data false _ =>
      match JSON_parse env (string_of_list_byte data) with
      | Normal (VObj fields) =>
          if is_string (field fields "type") "call_started"
          then Some (field fields "callId")
          else None
      | _ => None
      end
  | _ => None
  end.

(** [toolError.response ? toolError.response.data : toolError] *)
Definition error_detail (toolError : val) : completion val :=
  response ← member toolError "response";
  if truthy response then member response "data" else mret toolError.

(** A computation that assigns to none of the closure variables. *)
Definition keeps_session {A : Type} (m : Js A) : Prop :=
  ∀ s, post (m s) = s.

(** The writes that the binary branch makes for a sequence of frames, given
    the reference point of its flush test and the buffer it starts from. *)
Fixpoint chunks (ref : option Z) (queue : list Byte.byte)
         (frames : list (list Byte.byte * Clock)) : list (list Byte.byte) :=
  match frames with
  | [] => []
  | frame :: rest =>
      if window_elapsed ref (at_check frame.2)
      then (queue ++ frame.1) :: chunks ref [] rest
      else chunks ref (queue ++ frame.1) rest
  end.

(** ** A second environment, whose frames are JSON text *)

Definition quoted (s : string) : string := dq +:+ s +:+ dq.

(** [{"type":"client_tool_invocation","invocationId":"inv-1","toolName":"greet","parameters":{}}] *)
Definition greet_invocation_text : string :=
  "{" +:+ quoted "type" +:+ ":" +:+ quoted "client_tool_invocation" +:+ "," +:+
  quoted "invocationId" +:+ ":" +:+ quoted "inv-1" +:+ "," +:+
  quoted "toolName" +:+ ":" +:+ quoted "greet" +:+ "," +:+
  quoted "parameters" +:+ ":{}}".

(** [{"type":"call_started","callId":"call-7"}] *)
Definition call_started_text : string :=
  "{" +:+ quoted "type" +:+ ":" +:+ quoted "call_started" +:+ "," +:+
  quoted "callId" +:+ ":" +:+ quoted "call-7" +:+ "}".

(** [{"type":"transcript","final":true}] *)
Definition transcript_text : string :=
  "{" +:+ quoted "type" +:+ ":" +:+ quoted "transcript" +:+ "," +:+
  quoted "final" +:+ ":true}".

(** [JSON.parse] on those texts and on the texts of [sample_JSON_parse]. *)
Definition wire_JSON_parse (text : string) : completion val :=
  if String.eqb text greet_invocation_text
  then Normal (VObj (invocation_of "greet"))
  else if String.eqb text call_started_text
  then Normal (obj [ ("type", VStr "call_started");
                     ("callId", VStr "call-7") ])
  else if String.eqb text transcript_text
  then Normal (obj [ ("type", VStr "transcript"); ("final", VBool true) ])
  else sample_JSON_parse text.

(** A module that exports no [handler]. *)
Definition broken_tool : ToolModule :=
  {| tool_name := VStr "broken";
     tool_description := VStr "sample";
     tool_parameters := VArr [];
     tool_handler := ExportValue VUndefined |}.

(** An AMI bridge that cannot be reached. *)
Definition refused_axios_post (url : string) (body : val) : completion val :=
  Throw (VErr "AxiosError" "connect ECONNREFUSED 127.0.0.1:6006").

(** A tool whose handler fails the way a request of axios fails when the
    server answers with an error status. *)
Definition failing_handler : Handler :=
  λ _ _, Rejected (obj [ ("message", VStr "Request failed");
                         ("response", obj [ ("status", VNum 500);
                                            ("data", VStr "busy") ]) ]).

Definition wire_env : Environment :=
  {| JSON_parse := wire_JSON_parse;
     JSON_stringify := JSON_stringify sample_env;
     toUpperCase := sample_toUpperCase;
     avr_tools :=
       list_to_map
         [ ("avrHangup.js", avrHangup VUndefined refused_axios_post);
           ("avrTransfer.js", avrTransfer VUndefined refused_axios_post);
           ("greet.js", sample_tool "shadow" silent_handler) ];
     tools :=
       list_to_map
         [ ("greet.js", sample_tool "greet" greet_handler);
           ("broken.js", broken_tool);
           ("failing.js", sample_tool "failing" failing_handler) ];
     uuid := VStr "abc" |}.

(** The [type]s that the [switch] of the ['message'] listener names. *)
Definition recognized_types : list string :=
  [ "call_started"; "state"; "client_tool_invocation"; "transcript";
    "playback_clear_buffer"; "error" ]%string.

(** ** storage.js: the class [Storage] under Node *)

(** Node has no [window]: the constructor keeps a [Map].  Its entries are
    kept in insertion order; the keys are the strings that the callers
    pass. *)

(** [Map.prototype.get] *)
Fixpoint Map_get (key : string) (entries : list (string * val)) : val :=
  match entries with
  | [] => VUndefined
  | (k, v) :: rest => if String.eqb k key then v else Map_get key rest
  end.

(** [Map.prototype.set]: an existing key keeps its place. *)
Fixpoint Map_set (key : string) (data : val) (entries : list (string * val))
  : list (string * val) :=
  match entries with
  | [] => [(key, data)]
  | (k, v) :: rest =>
      if String.eqb k key then (k, data) :: rest
      else (k, v) :: Map_set key data rest
  end.

(** [Map.prototype.delete] *)
Fixpoint Map_delete (key : string) (entries : list (string * val))
  : list (string * val) :=
  match entries with
  | [] => []
  | (k, v) :: rest =>
      if String.eqb k key then rest else (k, v) :: Map_delete key rest
  end.

Section Storage.

Variable env : Environment.

(** [JSON.stringify(value)]: [undefined] has no JSON text. *)
Definition stringify (value : val) : val :=
  match value with
  | VUndefined => VUndefined
  | _ => VStr (JSON_stringify env value)
  end.

(** [set(key, value)] *)
Definition Storage_set (key : string) (value : val)
           (storage : list (string * val)) : list (string * val) :=
  let data := stringify value in
  Map_set key data storage.

(** [get(key)]: [JSON.parse] converts its argument to a string; when the
    conversion or the parser throws, the raw entry is returned. *)
Definition Storage_get (key : string) (storage : list (string * val)) : val :=
  let raw := Map_get key storage in
  match text ← template raw; JSON_parse env text with
  | Normal v => v
  | Throw _ => raw
  end.

(** [remove(key)] *)
Definition Storage_remove (key : string) (storage : list (string * val))
  : list (string * val) :=
  Map_delete key storage.

(** [clear()] *)
Definition Storage_clear (storage : list (string * val))
  : list (string * val) := [].

(** [keys()] *)
Definition Storage_keys (storage : list (string * val)) : list string :=
  storage.*1.

(** The calls that change a [Storage]. *)
Inductive StorageCall : Type :=
| CallSet (key : string) (value : val)
| CallRemove (key : string)
| CallClear.

Definition Storage_call (storage : list (string * val)) (c : StorageCall)
  : list (string * val) :=
  match c with
  | CallSet key value => Storage_set key value storage
  | CallRemove key => Storage_remove key storage
  | CallClear => Storage_clear storage
  end.

(** [new Storage('local')], after a sequence of calls. *)
Definition Storage_after (calls : list StorageCall) : list (string * val) :=
  foldl Storage_call [] calls.

(** ** utils/api.js: the interceptors of the axios instance *)

(** The request configuration that axios hands to an interceptor: its
    [headers] object and its other properties. *)
Record AxiosConfig : Type := mkAxiosConfig {
  config_headers : gmap string val;
  config_other : gmap string val
}.

(** [auth?.success] *)
Definition optional_member (v : val) (k : string) : completion val :=
  match v with
  | VUndefined | VNull => Normal VUndefined
  | _ => member v k
  end.

(** The request interceptor.  The [+] with a string converts the token as
    a template literal would. *)
Definition request_interceptor (storage : list (string * val))
           (config : AxiosConfig) : completion AxiosConfig :=
  let auth := Storage_get "auth" storage in
  success ← optional_member auth "success";
  if truthy success then
    authorization ← member auth "authorization";
    token ← member authorization "token";
    token ← template token;
    mret {| config_headers :=
              <["Authorization" := VStr ("Bearer " +:+ token)]>
                (config_headers config);
            config_other := config_other config |}
  else mret config.

(** [[401, 403].includes(status)] *)
Definition is_unauthorized (status : val) : bool :=
  match status with
  | VNum n => (n =? 401) || (n =? 403)
  | _ => false
  end.

(** The response interceptor for a failed request: the storage it leaves,
    the line it logs, and the settlement of the promise it returns.  An
    exception thrown by the interceptor rejects that promise. *)
Definition response_error_interceptor (storage : list (string * val))
           (error : val)
  : list (string * val) * list Action * settled :=
  match response ← member error "response"; member response "status" with
  | Throw e => (storage, [], Rejected e)
  | Normal status =>
      let log := ConsoleLog [VStr "error:"; status] in
      if is_unauthorized status
      then (Storage_remove "auth" storage, [log], Fulfilled VUndefined)
      else (storage, [log], Rejected error)
  end.

End Storage.

(** An environment whose storage holds what its [JSON.parse] reads as a
    successful login. *)
Definition login : val :=
  obj [ ("success", VBool true);
        ("authorization", obj [("token", VStr "t0k3n")]) ].

Definition login_env : Environment :=
  {| JSON_parse := λ text,
       if String.eqb text "{}" then Normal login else sample_JSON_parse text;
     JSON_stringify := JSON_stringify sample_env;
     toUpperCase := sample_toUpperCase;
     avr_tools := ∅;
     tools := ∅;
     uuid := VUndefined |}.


(** ** loadTools.js: [loadTools] *)

Definition temporaryTool (tool : ToolModule) : val :=
  obj [ ("temporaryTool",
         obj [ ("modelToolName", tool_name tool);
               ("description", tool_description tool);
               ("dynamicParameters", tool_parameters tool);
               ("client", obj []) ]) ].

(** [fs.readdir] lists the files in an order that the file system chooses;
    the model takes the order of [map_to_list].  A directory that is missing
    gives [[]], as one without files does. *)
Definition loadTools (env : Environment) : list val :=
  (λ entry, temporaryTool entry.2) <$> map_to_list (tools env).

(** The name under which an entry of [selectedTools] offers a tool. *)
Definition modelToolName (entry : val) : completion val :=
  tool ← member entry "temporaryTool";
  member tool "modelToolName".

(** ** index.js: [connectToUltravox] *)

(** What [connectToUltravox] does to the outside, in order. *)
Inductive Effect : Type :=
| HttpPost (url : string) (body headers : val)
| Logged (args : list val).

(** [new Error(v)]: the message is the string form of [v], and is empty
    when [v] is [undefined]; the constructor throws when [v] has no string
    form. *)
Definition new_Error (v : val) : completion val :=
  match v with
  | VUndefined => Normal (Error EmptyString)
  | _ => message ← template v; mret (Error message)
  end.

(** [Object.entries(v)] *)
Definition Object_entries (v : val) : completion (list (string * val)) :=
  match v with
  | VUndefined | VNull =>
      Throw (TypeError "Cannot convert undefined or null to object")
  | _ => Normal (map_to_list (own_enumerable v))
  end.

(** [s.replace(':', 'h')]: the first colon only. *)
Fixpoint replace_colon (s : string) : string :=
  match s with
  | EmptyString => EmptyString
  | String c rest =>
      if Ascii.eqb c ":"%char then String "h"%char rest
      else String c (replace_colon rest)
  end.

(** What [connectToUltravox] takes from the process and from its
    collaborators: four variables of the environment, the date and the time
    as the locale of [config.dateTime] prints them, the callback
    [beforeCall] of [./callbacks] with the template context it leaves,
    [axios.post] and the constructor of [WebSocket].  The module throws
    while it loads when [ULTRAVOX_AGENT_ID] is not set, so that variable is
    a string. *)
Record Backend : Type := mkBackend {
  ULTRAVOX_TEMPLATE_CONTEXT : val;
  ULTRAVOX_AGENT_ID : string;
  ULTRAVOX_API_KEY : val;
  ULTRAVOX_CLIENT_BUFFER_SIZE_MS : val;
  currentDate : string;
  currentTime : string;
  beforeCall : val → gmap string val → completion (gmap string val);
  axios_post_calls : string → val → val → completion val;
  new_WebSocket : val → completion val
}.

Section Connect.

Variable env : Environment.
Variable backend : Backend.

(** [Object.fromEntries(Object.entries(JSON.parse(... || {})).map(...))],
    and the assignment to [current_datetime]. *)
Definition templateContext : completion (gmap string val) :=
  text ← template (or_else (ULTRAVOX_TEMPLATE_CONTEXT backend) (obj []));
  context ← JSON_parse env text;
  entries ← Object_entries context;
  pairs ← mapM (λ entry : string * val,
                  value ← member entry.2 "value"; mret (entry.1, value))
               entries;
  let fromEntries : gmap string val := list_to_map pairs in
  if bool_decide (is_Some (fromEntries !! "hasOwnProperty"))
  then Throw (TypeError "templateContext.hasOwnProperty is not a function")
  else
    mret (if bool_decide (is_Some (fromEntries !! "current_datetime"))
          then <["current_datetime" :=
                  VStr (currentDate backend +:+ " " +:+
                        replace_colon (currentTime backend))]> fromEntries
          else fromEntries).

Definition calls_url : string :=
  "https://api.ultravox.ai/api/agents/" +:+
  ULTRAVOX_AGENT_ID backend +:+ "/calls".

Definition call_request (uuid : val) (context : gmap string val) : val :=
  obj [ ("metadata", obj [("uuid", uuid)]);
        ("medium",
         obj [ ("serverWebSocket",
                obj [ ("inputSampleRate", VNum 8000);
                      ("outputSampleRate", VNum 8000);
                      ("clientBufferSizeMs",
                       ULTRAVOX_CLIENT_BUFFER_SIZE_MS backend) ]) ]);
        ("templateContext", VObj context) ].

Definition call_headers : val :=
  obj [ ("headers",
         obj [ ("Content-Type", VStr "application/json");
               ("X-API-Key", ULTRAVOX_API_KEY backend) ]) ].

(** The body of the [try] block.  The context object is one a property of
    which is a function only if a variable of the template is named
    [hasOwnProperty] with one as its value, which JSON does not allow. *)
Definition connect_try (uuid : val) : list Effect * completion val :=
  match context ← templateContext; beforeCall backend uuid context with
  | Throw e => ([], Throw e)
  | Normal context =>
      let body := call_request uuid context in
      let request := HttpPost calls_url body call_headers in
      match axios_post_calls backend calls_url body call_headers with
      | Throw e => ([request], Throw e)
      | Normal response =>
          match
            status ← member response "status";
            data ← member response "data";
            joinUrl ← member data "joinUrl";
            mret (status, joinUrl)
          with
          | Throw e => ([request], Throw e)
          | Normal (status, joinUrl) =>
              ([request; Logged [status; joinUrl]],
               if truthy joinUrl then new_WebSocket backend joinUrl
               else Throw (Error "Missing Ultravox joinUrl"))
          end
      end
  end.

(** The body of the [catch (error)] block. *)
Definition connect_catch (error : val) : completion val :=
  response ← member error "response";
  if truthy response then
    data ← member response "data";
    wrapped ← new_Error data;
    Throw wrapped
  else
    wrapped ← new_Error error;
    Throw wrapped.

Definition connectToUltravox (uuid : val) : list Effect * completion val :=
  match connect_try uuid with
  | (effects, Normal socket) => (effects, Normal socket)
  | (effects, Throw error) => (effects, connect_catch error)
  end.

End Connect.

(** ** The tool case of the earlier index.js *)

(** In the variant of index.js that first dispatched tools, the result goes
    to the caller response: [res.write(JSON.stringify({type, result,
    invocationId}))].  Nothing is sent to the backend, and a tool without a
    handler or a failure of the handler is only logged. *)
Definition onToolInvocation_v1 (env : Environment) (message : val) : Js unit :=
  toolName ← eval (member message "toolName");
  invocationId ← eval (member message "invocationId");
  parameters ← eval (member message "parameters");
  console_log [VStr "Tool invocation:"; toolName; invocationId; parameters;
               uuid env];;
  try_catch
    (handler ← eval (getToolHandler env toolName);
     if negb (export_truthy handler) then
       name ← eval (template toolName);
       console_error [VStr ("No handler found for tool: " +:+ name)]
     else
       name ← eval (template toolName);
       console_log [VStr (">> Tool call: " +:+ name); uuid env; parameters];;
       content ← call_handler env handler parameters;
       name ← eval (template toolName);
       console_log [VStr (">> Tool response: " +:+ name +:+ " ->"); content];;
       emit (ResWrite
               (list_byte_of_string
                  (JSON_stringify env
                     (obj [ ("type", VStr "client_tool_result");
                            ("result", content);
                            ("invocationId", invocationId) ])))))
    (λ toolError,
       name ← eval (template toolName);
       console_error
         [VStr ("[Error executing tool " +:+ name +:+ ":"); toolError]).

(** The [value] of the properties of a template variable. *)
Definition value_of (properties : val) : val :=
  match member properties "value" with
  | Normal value => value
  | Throw _ => VUndefined
  end.

(** ** Deployments for [loadTools] and [connectToUltravox] *)

(** A tool kept in a file that is not named after it. *)
Definition renamed_env : Environment :=
  {| JSON_parse := sample_JSON_parse;
     JSON_stringify := JSON_stringify sample_env;
     toUpperCase := sample_toUpperCase;
     avr_tools := ∅;
     tools := list_to_map [ ("hello-tool.js", sample_tool "hello" greet_handler) ];
     uuid := VStr "abc" |}.

(** [{"caller":{"value":"Ana"},"current_datetime":{"value":"now"}}] *)
Definition variables_text : string :=
  "{" +:+ quoted "caller" +:+ ":{" +:+ quoted "value" +:+ ":" +:+
  quoted "Ana" +:+ "}," +:+ quoted "current_datetime" +:+ ":{" +:+
  quoted "value" +:+ ":" +:+ quoted "now" +:+ "}}".

Definition sample_variables : gmap string val :=
  list_to_map [ ("caller", obj [("value", VStr "Ana")]);
                ("current_datetime", obj [("value", VStr "now")]) ].

Definition connect_env : Environment :=
  {| JSON_parse := λ text, if String.eqb text variables_text
                           then Normal (VObj sample_variables)
                           else sample_JSON_parse text;
     JSON_stringify := JSON_stringify sample_env;
     toUpperCase := sample_toUpperCase;
     avr_tools := avr_tools sample_env;
     tools := tools sample_env;
     uuid := VStr "abc" |}.

(** An agent with the given [ULTRAVOX_TEMPLATE_CONTEXT], whose API answers
    every request in the given way. *)
Definition sample_backend (context : val) (answer : completion val) : Backend :=
  {| ULTRAVOX_TEMPLATE_CONTEXT := context;
     ULTRAVOX_AGENT_ID := "agent-1";
     ULTRAVOX_API_KEY := VStr "key-1";
     ULTRAVOX_CLIENT_BUFFER_SIZE_MS := VNum 60;
     currentDate := "lunes, 2 de noviembre de 2026";
     currentTime := "10:30";
     beforeCall := λ _ context, Normal context;
     axios_post_calls := λ _ _ _, answer;
     new_WebSocket := λ joinUrl, Normal (obj [("url", joinUrl)]) |}.

(** A response of the API to the request for a call. *)
Definition call_response (status : Z) (data : val) : val :=
  obj [ ("status", VNum status); ("data", data) ].

(** A tool invocation whose [toolName] is the object that [JSON.parse] makes
    of [{"toString":null}]. *)
Definition unprintable_invocation : gmap string val :=
  list_to_map [ ("type", VStr "client_tool_invocation");
                ("invocationId", VStr "inv-1");
                ("toolName", obj [("toString", VNull)]);
                ("parameters", obj []) ].

(** * Properties *)

(** ** Computations that leave the audio buffer alone *)

Lemma written_app (xs ys : list Action) :
  written (xs ++ ys) = written xs ++ written ys.
Proof. apply omap_app. Qed.

Lemma neutral_mret {A : Type} (a : A) : audio_neutral (mret a).
Proof. intros s. done. Qed.

Lemma neutral_eval {A : Type} (c : completion A) : audio_neutral (eval c).
Proof. intros s. done. Qed.

Lemma neutral_gets {A : Type} (f : Session → A) : audio_neutral (gets f).
Proof. intros s. done. Qed.

Lemma neutral_throw {A : Type} (e : val) : audio_neutral (@throw A e).
Proof. intros s. done. Qed.

Lemma neutral_emit (a : Action) : written [a] = [] → audio_neutral (emit a).
Proof. intros Ha s. done. Qed.

Lemma neutral_set_callId (v : val) : audio_neutral (modify (set_callId v)).
Proof. intros s. done. Qed.

Lemma neutral_bind {A B : Type} (m : Js A) (k : A → Js B) :
  audio_neutral m → (∀ a, audio_neutral (k a)) → audio_neutral (m ≫= k).
Proof.
  intros Hm Hk s. destruct (Hm s) as [Hstate Hout].
  unfold mbind, Js_bind. destruct (m s) as [s1 acts1 [a|e]]; simpl in *.
  - destruct (Hk a s1) as [Hstate' Hout'].
    destruct (k a s1) as [s2 acts2 r]; simpl in *. split.
    + congruence.
    + by rewrite written_app, Hout, Hout'.
  - done.
Qed.

Lemma neutral_try_catch {A : Type} (body : Js A) (handler : val → Js A) :
  audio_neutral body → (∀ e, audio_neutral (handler e)) →
  audio_neutral (try_catch body handler).
Proof.
  intros Hm Hk s. destruct (Hm s) as [Hstate Hout].
  unfold try_catch. destruct (body s) as [s1 acts1 [a|e]]; simpl in *.
  - done.
  - destruct (Hk e s1) as [Hstate' Hout'].
    destruct (handler e s1) as [s2 acts2 r]; simpl in *. split.
    + congruence.
    + by rewrite written_app, Hout, Hout'.
Qed.

Ltac neutral_step :=
  first
    [ apply neutral_mret | apply neutral_eval | apply neutral_gets
    | apply neutral_throw | apply neutral_set_callId
    | apply neutral_emit; reflexivity
    | apply neutral_bind; [| intros ?]
    | apply neutral_try_catch; [| intros ?]
    | match goal with
      | |- audio_neutral (if ?b then _ else _) => destruct b
      | |- audio_neutral (match ?x with _ => _ end) => destruct x
      end ].

Ltac neutral := repeat neutral_step.

Section Properties.

Variable env : Environment.

Lemma onToolInvocation_neutral (message : val) :
  audio_neutral (onToolInvocation env message).
Proof.
  unfold onToolInvocation, tool_try, tool_catch, send_json, console_log,
    console_error, shape_rejected, call_handler.
  neutral.
Qed.

Lemma onTextMessage_neutral (data : list Byte.byte) :
  audio_neutral (onTextMessage env data).
Proof.
  unfold onTextMessage, console_log, console_error.
  repeat first [apply onToolInvocation_neutral | neutral_step].
Qed.

(** ** The binary branch, frame by frame *)

Lemma window_elapsed_true (startTime : option Z) (now : Z) :
  window_elapsed startTime now = true ↔
  ∃ t, startTime = Some t ∧ t ≠ 0 ∧ 100 ≤ now - t.
Proof.
  unfold window_elapsed. destruct startTime as [t|].
  - rewrite andb_true_iff, negb_true_iff, Z.eqb_neq, Z.leb_le. split.
    + intros [Ht Hnow]. by exists t.
    + intros (t' & [= <-] & Ht & Hnow). done.
  - split; [done | by intros (t & ? & _)].
Qed.

Lemma onBinaryMessage_eq (data : list Byte.byte) (clock : Clock) (s : Session) :
  let start :=
    if isFirstUltravoxChunk s then Some (at_mark clock)
    else ultravoxStartTime s in
  let flush := window_elapsed start (at_check clock) in
  onBinaryMessage data clock s =
  mkOutcome
    {| ultravoxChunksQueue :=
         if flush then [] else ultravoxChunksQueue s ++ data;
       isFirstUltravoxChunk := false;
       ultravoxStartTime := start;
       callId := callId s |}
    ((if isFirstUltravoxChunk s
      then [ConsoleLog
              [VStr "First Ultravox audio chunk received, starting delay..."]]
      else []) ++
     (if flush then [ResWrite (ultravoxChunksQueue s ++ data)] else []))
    (Normal ()).
Proof.
  destruct s as [queue first startTime id].
  destruct first;
    unfold onBinaryMessage, mbind, Js_bind, gets, modify, emit, console_log,
      mret, Js_ret;
    cbn -[window_elapsed];
    match goal with
    | |- context [window_elapsed ?t ?n] => destruct (window_elapsed t n)
    end; reflexivity.
Qed.

Lemma audio_state_inv (s s' : Session) :
  audio_state s' = audio_state s →
  ultravoxChunksQueue s' = ultravoxChunksQueue s ∧
  isFirstUltravoxChunk s' = isFirstUltravoxChunk s ∧
  ultravoxStartTime s' = ultravoxStartTime s.
Proof. unfold audio_state. by intros [= -> -> ->]. Qed.

Lemma step_binary (data : list Byte.byte) (clock : Clock) (s : Session) :
  let start := reference s [(data, clock)] in
  let flush := window_elapsed start (at_check clock) in
  let now := step env (WsMessage data true clock) s in
  ultravoxChunksQueue now.1 =
    (if flush then [] else ultravoxChunksQueue s ++ data) ∧
  isFirstUltravoxChunk now.1 = false ∧
  ultravoxStartTime now.1 = start ∧
  written now.2 = (if flush then [ultravoxChunksQueue s ++ data] else []).
Proof.
  unfold step, run_async, onMessage, reference.
  rewrite onBinaryMessage_eq. cbn -[window_elapsed].
  destruct (isFirstUltravoxChunk s); cbn -[window_elapsed];
    match goal with
    | |- context [window_elapsed ?t ?n] => destruct (window_elapsed t n)
    end; done.
Qed.

Lemma run_sync_neutral (listener : Js unit) (s : Session) :
  audio_neutral listener →
  audio_state (run_sync listener s).1 = audio_state s ∧
  written (run_sync listener s).2 = [].
Proof.
  intros H. destruct (H s) as [Hstate Hout]. unfold run_sync.
  destruct (listener s) as [s1 acts [[]|e]]; simpl in *; split; try done.
  by rewrite written_app, Hout.
Qed.

Lemma run_async_neutral (listener : Js unit) (s : Session) :
  audio_neutral listener →
  audio_state (run_async listener s).1 = audio_state s ∧
  written (run_async listener s).2 = [].
Proof.
  intros H. destruct (H s) as [Hstate Hout]. unfold run_async.
  destruct (listener s) as [s1 acts [[]|e]]; simpl in *; split; try done.
  by rewrite written_app, Hout.
Qed.

(** Every event other than a binary backend frame leaves the buffer, the
    first-chunk flag and the reference point as they are and writes nothing
    to the caller. *)
Lemma step_other (ev : Event) (s : Session) :
  binary_frames [ev] = [] →
  audio_state (step env ev s).1 = audio_state s ∧
  written (step env ev s).2 = [].
Proof.
  intros Hev. destruct ev as [|data [|] clock| |err|chunk state| |err];
    try discriminate Hev; cbn [step onMessage].
  - apply run_sync_neutral. unfold onWsOpen, console_log. neutral.
  - apply run_async_neutral. apply onTextMessage_neutral.
  - apply run_sync_neutral. unfold onWsClose, console_log. neutral.
  - apply run_sync_neutral. unfold onWsError, console_error. neutral.
  - apply run_async_neutral. unfold onReqData. neutral.
  - apply run_sync_neutral. unfold onReqEnd, console_log. neutral.
  - apply run_sync_neutral.
    unfold onReqError, console_error, resolve_identifier. neutral.
Qed.

(** ** The binary branch over a whole run *)

Lemma event_cases (ev : Event) :
  (∃ data clock, ev = WsMessage data true clock) ∨ binary_frames [ev] = [].
Proof. destruct ev as [|data [|] clock| | | | |]; eauto. Qed.

Lemma binary_frames_cons (ev : Event) (evs : list Event) :
  binary_frames (ev :: evs) = binary_frames [ev] ++ binary_frames evs.
Proof. unfold binary_frames. simpl. by destruct ev as [|? [|] ?| | | | |]. Qed.

Lemma flush_log_other (ev : Event) (evs : list Event)
      (acts : list Action) (trace : list (list Action)) :
  binary_frames [ev] = [] →
  flush_log (ev :: evs) (acts :: trace) = flush_log evs trace.
Proof. by destruct ev as [|? [|] ?| | | | |]. Qed.

Lemma reference_audio_state (s s' : Session)
      (frames : list (list Byte.byte * Clock)) :
  audio_state s' = audio_state s → reference s' frames = reference s frames.
Proof. unfold audio_state, reference. by intros [= _ -> ->]. Qed.

Lemma run_conserves (evs : list Event) (s : Session) :
  concat (written (concat (run env evs s).2)) ++
    ultravoxChunksQueue (run env evs s).1 =
  ultravoxChunksQueue s ++ concat ((binary_frames evs).*1).
Proof.
  revert s. induction evs as [|ev evs IH]; intros s.
  - simpl. by rewrite app_nil_r.
  - cbn [run fst snd concat]. rewrite binary_frames_cons.
    rewrite written_app, concat_app, <- app_assoc, IH.
    destruct (event_cases ev) as [(data & clock & ->) | Hother].
    + destruct (step_binary data clock s) as (Hq & _ & _ & Hout).
      rewrite Hq, Hout.
      change (binary_frames [WsMessage data true clock]) with [(data, clock)].
      cbn [fmap list_fmap app fst concat].
      destruct (window_elapsed _ _); simpl;
        by rewrite ?app_nil_r, <- ?app_assoc.
    + destruct (step_other ev s Hother) as [Hstate Hout].
      apply audio_state_inv in Hstate as (Hq & _ & _).
      by rewrite Hq, Hout, Hother.
Qed.

Lemma run_flush_log (evs : list Event) (s : Session) :
  let ref := reference s (binary_frames evs) in
  ultravoxStartTime (run env evs s).1 = ref ∧
  flush_log evs (run env evs s).2 =
    (λ frame, (frame.2, window_elapsed ref (at_check frame.2))) <$>
    binary_frames evs.
Proof.
  revert s. induction evs as [|ev evs IH]; intros s.
  - unfold reference. simpl. by destruct (isFirstUltravoxChunk s).
  - cbn [run fst snd]. rewrite binary_frames_cons.
    destruct (event_cases ev) as [(data & clock & ->) | Hother].
    + destruct (step_binary data clock s) as (_ & Hfirst & Hstart & Hout).
      destruct (IH (step env (WsMessage data true clock) s).1) as [IH1 IH2].
      assert (reference (step env (WsMessage data true clock) s).1
                (binary_frames evs) = reference s [(data, clock)]) as Href.
      { unfold reference at 1. by rewrite Hfirst, Hstart. }
      rewrite Href in IH1, IH2.
      assert (reference s (binary_frames [WsMessage data true clock] ++
                           binary_frames evs) = reference s [(data, clock)])
        as ->.
      { unfold reference. by destruct (isFirstUltravoxChunk s). }
      split; [done|].
      change (binary_frames [WsMessage data true clock]) with [(data, clock)].
      cbn [flush_log app fmap list_fmap snd].
      rewrite Hout, IH2. do 2 f_equal.
      by destruct (window_elapsed _ _).
    + destruct (step_other ev s Hother) as [Hstate Hout].
      destruct (IH (step env ev s).1) as [IH1 IH2].
      rewrite (reference_audio_state _ _ _ Hstate) in IH1, IH2.
      rewrite Hother. split; [done|].
      by rewrite flush_log_other.
Qed.

(** Whenever the arrival of a frame flushes, the session's first binary
    frame recorded a non-zero reference and the flush test read a clock at
    least 100 ms past it. *)
Lemma flush_needs_elapsed_window (evs : list Event) (clock : Clock) :
  (clock, true) ∈ flush_log evs (run env evs initial).2 →
  ∃ first,
    head (binary_frames evs) = Some first ∧
    at_mark first.2 ≠ 0 ∧
    100 ≤ at_check clock - at_mark first.2.
Proof.
  destruct (run_flush_log evs initial) as [_ ->].
  intros ([data clock'] & [= <- Hflush] & _)%list_elem_of_fmap.
  symmetry in Hflush.
  apply window_elapsed_true in Hflush as (t & Ht & H0 & H100).
  unfold reference in Ht. simpl in Ht.
  destruct (binary_frames evs) as [|first frames]; [discriminate Ht|].
  injection Ht as <-. by exists first.
Qed.

(** C1, as amended.  The reference point is recorded once per session, at
    the first binary frame of the session, and is never recorded again after
    a flush.  The arrival of a binary frame flushes the buffer exactly when
    that reference is non-zero and the clock read in the flush test is at
    least 100 ms past it.  So no flush happens less than 100 ms after the
    first binary frame of the session, and from then on the test compares
    against the same reference. *)
Theorem flush_window_is_per_session (evs : list Event) :
  let frames := binary_frames evs in
  let ref := (λ frame, at_mark frame.2) <$> head frames in
  ultravoxStartTime (run env evs initial).1 = ref ∧
  flush_log evs (run env evs initial).2 =
    (λ frame, (frame.2, window_elapsed ref (at_check frame.2))) <$> frames.
Proof.
  intros frames ref. destruct (run_flush_log evs initial) as [H1 H2].
  assert (reference initial (binary_frames evs) = ref) as Href.
  { unfold reference, ref, frames. simpl. by destruct (binary_frames evs). }
  by rewrite Href in H1, H2.
Qed.

(** C2, as amended.  At every point of a session, the bytes written to the
    caller followed by the bytes still in the buffer are the bytes of the
    binary frames received, in order.  A frame's arrival either leaves the
    buffer extended by the frame and writes nothing, or writes the whole
    extended buffer as one write and leaves the buffer empty. *)
Theorem written_and_buffered_bytes (evs : list Event) :
  let final := run env evs initial in
  concat (written (concat final.2)) ++ ultravoxChunksQueue final.1 =
    concat ((binary_frames evs).*1) ∧
  ∀ (s : Session) (data : list Byte.byte) (clock : Clock),
    let now := step env (WsMessage data true clock) s in
    let buffer := ultravoxChunksQueue s ++ data in
    written now.2 = [buffer] ∧ ultravoxChunksQueue now.1 = [] ∨
    written now.2 = [] ∧ ultravoxChunksQueue now.1 = buffer.
Proof.
  split.
  - apply (run_conserves evs initial).
  - intros s data clock now buffer. subst now buffer.
    destruct (step_binary data clock s) as (Hq & _ & _ & Hout).
    rewrite Hq, Hout. destruct (window_elapsed _ _); auto.
Qed.

(** ** The tool dispatcher *)

Ltac js_unfold :=
  unfold onTextMessage, onToolInvocation, tool_try, tool_catch, try_catch,
    shape_rejected, call_handler, send_json, console_log, console_error, eval, emit, throw,
    gets, modify, mbind, Js_bind, mret, Js_ret.

Ltac js_eval :=
  cbn [post emitted result app member export_truthy truthy negb typeof
       String.eqb Ascii.eqb Bool.eqb is_string
       sent invoked escaped logged written omap list_omap fst snd].

Ltac js_run := js_unfold; js_eval.

(** Only an object has a [result] or a [responseType] that is a string. *)
Lemma string_member_object (v : val) (k text : string) :
  k = "result" ∨ k = "responseType" →
  member v k = Normal (VStr text) →
  ∃ fields, v = VObj fields ∧ fields !! k = Some (VStr text).
Proof.
  intros Hk Hv. destruct v as [| | | | |fields| |]; try discriminate Hv.
  - by destruct Hk as [-> | ->].
  - exists fields. split; [done|]. injection Hv as Hv. unfold field in Hv.
    destruct (fields !! k) as [v|]; simpl in Hv; [by subst | discriminate Hv].
  - by destruct Hk as [-> | ->].
  - by destruct Hk as [-> | ->].
Qed.

(** *** Conversions of the tool name *)

Lemma template_string_form (v : val) :
  has_string_form v = true → template v = Normal (ToString v).
Proof. intros Hv. unfold template. by rewrite Hv. Qed.


Lemma template_returns (v : val) (text : string) :
  template v = Normal text → has_string_form v = true ∧ text = ToString v.
Proof.
  unfold template. destruct (has_string_form v); [|done].
  intros [= <-]. done.
Qed.

(** A name that [getToolHandler] resolved is one that the template literals
    of the dispatcher print. *)
Lemma resolved_name_converts (name : val) (handler : export) :
  getToolHandler env name = Normal handler →
  template name = Normal (ToString name).
Proof.
  unfold getToolHandler. destruct (template name) as [text|e] eqn:Hname.
  - apply template_returns in Hname as [_ ->]. done.
  - done.
Qed.

(** C9.  When the handler's result is a plain string [text], the one message
    sent back is a [client_tool_result] with [result = text],
    [responseType = "tool-response"] and the invocation's [invocationId]. *)
Theorem string_result_reply
        (fields : gmap string val) (f : Handler) (text : string) (s : Session) :
  getToolHandler env (field fields "toolName") = Normal (ExportFunction f) →
  f (uuid env) (field fields "parameters") = Fulfilled (VStr text) →
  sent (emitted (onToolInvocation env (VObj fields) s)) =
    [ obj [ ("type", VStr "client_tool_result");
            ("result", VStr text);
            ("responseType", VStr "tool-response");
            ("invocationId", field fields "invocationId") ] ].
Proof.
  intros Hresolve Hreturn.
  pose proof (resolved_name_converts _ _ Hresolve) as Hname. js_run.
  rewrite Hresolve. js_eval. rewrite !Hname. js_eval.
  rewrite Hreturn. js_eval. reflexivity.
Qed.

(** C10.  When the handler's result is accepted as a structured result, the
    one message sent back carries the invocation's [invocationId], whatever
    [invocationId] the result names, and every other property of the result
    as the handler returned it; its [type] is [client_tool_result] unless the
    result names a [type] of its own. *)
Theorem structured_result_passthrough
        (fields : gmap string val) (f : Handler) (result : val)
        (text responseType : string) (s : Session) :
  getToolHandler env (field fields "toolName") = Normal (ExportFunction f) →
  f (uuid env) (field fields "parameters") = Fulfilled result →
  member result "result" = Normal (VStr text) →
  member result "responseType" = Normal (VStr responseType) →
  ∃ m : gmap string val,
    sent (emitted (onToolInvocation env (VObj fields) s)) = [VObj m] ∧
    m !! "invocationId" = Some (field fields "invocationId") ∧
    (∀ k v, k ≠ "invocationId" →
            own_enumerable result !! k = Some v → m !! k = Some v) ∧
    (∀ k, k ≠ "invocationId" → k ≠ "type" →
          m !! k = own_enumerable result !! k) ∧
    m !! "type" =
      Some (default (VStr "client_tool_result")
                    (own_enumerable result !! "type")).
Proof.
  intros Hresolve Hreturn Htext Htype.
  destruct (string_member_object _ _ _ (or_introl eq_refl) Htext)
    as (record & -> & Hrecord).
  exists (<["invocationId" := field fields "invocationId"]>
            (record ∪ {["type" := VStr "client_tool_result"]})).
  split; [|split; [|split; [|split]]].
  - pose proof (resolved_name_converts _ _ Hresolve) as Hname.
    js_run. rewrite Hresolve. js_eval. rewrite !Hname. js_eval.
    rewrite Hreturn. js_eval.
    simpl in Htext, Htype. injection Htext as ->. injection Htype as ->.
    js_eval. reflexivity.
  - apply lookup_insert_eq.
  - intros k v Hk Hv. rewrite lookup_insert_ne by done.
    by apply lookup_union_Some_l.
  - intros k Hk1 Hk2. rewrite lookup_insert_ne by done.
    rewrite lookup_union_l; [done|]. by rewrite lookup_singleton_ne.
  - rewrite lookup_insert_ne by done. rewrite lookup_union. simpl.
    rewrite lookup_singleton_eq. by destruct (record !! "type").
Qed.

(** *** Resolving a tool *)

Lemma getToolHandler_cases (name : val) :
  let file := ToString name +:+ ".js" in
  has_string_form name = true →
  (∃ tool,
     (avr_tools env !! file = Some tool ∨
      avr_tools env !! file = None ∧ tools env !! file = Some tool) ∧
     getToolHandler env name = Normal (tool_handler tool)) ∨
  (avr_tools env !! file = None ∧ tools env !! file = None ∧
   getToolHandler env name = Throw (not_found name)).
Proof.
  intros file Hname.
  unfold getToolHandler, first_accessible, fs_access, not_found.
  rewrite (template_string_form _ Hname). fold file. cbn [directory fst snd].
  destruct (avr_tools env !! file) as [tool|] eqn:Havr.
  - left. exists tool. split; [by left|].
    rewrite bool_decide_true by eauto. cbn [directory fst snd]. by rewrite Havr.
  - rewrite bool_decide_false by (by intros [? ?]).
    destruct (tools env !! file) as [tool|] eqn:Htools.
    + left. exists tool. split; [by right|].
      rewrite bool_decide_true by eauto. cbn [directory fst snd].
      by rewrite Htools.
    + right. rewrite bool_decide_false by (by intros [? ?]). done.
Qed.

(** A name without a string form resolves to nothing: the conversion
    throws before a file is looked for. *)
Lemma getToolHandler_unprintable (name : val) :
  has_string_form name = false →
  getToolHandler env name =
    Throw (TypeError "Cannot convert object to primitive value").
Proof. intros Hname. unfold getToolHandler, template. by rewrite Hname. Qed.


(** A tool that has no file in either directory: [getToolHandler] throws,
    the [catch] block answers, and the error object itself is the
    [errorMessage]. *)
Lemma unresolved_tool_reply (fields : gmap string val) (s : Session) :
  let name := field fields "toolName" in
  let file := ToString name +:+ ".js" in
  has_string_form name = true →
  avr_tools env !! file = None →
  tools env !! file = None →
  emitted (onToolInvocation env (VObj fields) s) =
    [ ConsoleError [ VStr ("[Error executing tool " +:+ ToString name +:+ ":");
                     not_found name ];
      WsSendJSON (error_reply (not_found name) (field fields "invocationId")) ].
Proof.
  intros name file Hname Havr Htools.
  destruct (getToolHandler_cases name Hname)
    as [(tool & [H | [_ H]] & _) | (_ & _ & Hthrow)];
    [fold file in H; congruence .. |].
  js_run. fold name. rewrite Hthrow. unfold not_found, Error. js_eval.
  rewrite (template_string_form _ Hname). js_eval. reflexivity.
Qed.

(** A tool whose module exports no handler, or a falsy one: the branch that
    reports [errorType = "undefined"]. *)
Lemma missing_handler_reply (fields : gmap string val) (v : val) (s : Session) :
  let name := field fields "toolName" in
  getToolHandler env name = Normal (ExportValue v) →
  truthy v = false →
  emitted (onToolInvocation env (VObj fields) s) =
    [ ConsoleError [ VStr ("No handler found for tool: " +:+ ToString name) ];
      WsSendJSON
        (obj [ ("type", VStr "client_tool_result");
               ("invocationId", field fields "invocationId");
               ("errorType", VStr "undefined");
               ("errorMessage",
                VStr ("Client tool " +:+ ToString name +:+
                      " is not registered")) ]) ].
Proof.
  intros name Hresolve Hfalsy.
  pose proof (resolved_name_converts _ _ Hresolve) as Hname.
  js_run. fold name. rewrite Hresolve. js_eval.
  rewrite Hfalsy. js_eval. rewrite !Hname. js_eval. reflexivity.
Qed.

(** C4, as amended.  A handler result that is neither a string nor
    [undefined] nor [null], and that does not have both a string [result] and
    a string [responseType], is answered with [implementation-error] and the
    diagnostic of the source. *)
Theorem shape_violation_reply
        (fields : gmap string val) (f : Handler) (result : val) (s : Session) :
  getToolHandler env (field fields "toolName") = Normal (ExportFunction f) →
  f (uuid env) (field fields "parameters") = Fulfilled result →
  typeof result ≠ "string" →
  result ≠ VUndefined →
  result ≠ VNull →
  ¬ (∃ text responseType,
       member result "result" = Normal (VStr text) ∧
       member result "responseType" = Normal (VStr responseType)) →
  sent (emitted (onToolInvocation env (VObj fields) s)) =
    [ violation_reply (field fields "invocationId") ].
Proof.
  intros Hresolve Hreturn Hstring Hundefined Hnull Hshape.
  pose proof (resolved_name_converts _ _ Hresolve) as Hname.
  js_run. rewrite Hresolve. js_eval. rewrite !Hname. js_eval.
  rewrite Hreturn. js_eval.
  destruct result as [| |b|n|text|record|items|name message];
    try done; js_eval; try reflexivity.
  destruct (field record "result") as [| | | |text| | |] eqn:Hresult;
    js_eval; try reflexivity.
  destruct (field record "responseType") as [| | | |responseType| | |]
    eqn:Htype; js_eval; try reflexivity.
  destruct Hshape. exists text, responseType. simpl. by rewrite Hresult, Htype.
Qed.

(** C8, as amended.  A record with a string [responseText] and a string
    [responseType] is accepted exactly when it also has a string [result];
    without one it is answered as a contract violation. *)
Theorem responseText_record_needs_result
        (fields : gmap string val) (f : Handler) (record : gmap string val)
        (text responseType : string) (s : Session) :
  getToolHandler env (field fields "toolName") = Normal (ExportFunction f) →
  f (uuid env) (field fields "parameters") = Fulfilled (VObj record) →
  record !! "responseText" = Some (VStr text) →
  record !! "responseType" = Some (VStr responseType) →
  sent (emitted (onToolInvocation env (VObj fields) s)) =
    [ if String.eqb (typeof (field record "result")) "string"
      then VObj (<["invocationId" := field fields "invocationId"]>
                   (record ∪ {["type" := VStr "client_tool_result"]}))
      else violation_reply (field fields "invocationId") ].
Proof.
  intros Hresolve Hreturn _ Htype.
  pose proof (resolved_name_converts _ _ Hresolve) as Hname.
  js_run. rewrite Hresolve. js_eval. rewrite !Hname. js_eval.
  rewrite Hreturn. js_eval.
  unfold field at 2. rewrite Htype. simpl default.
  destruct (field record "result"); js_eval; reflexivity.
Qed.

(** *** Every path of the dispatcher *)




(** A name that has no string form makes the [catch] block throw at its log
    line, before it sends anything. *)
Lemma tool_catch_unprintable
      (fields : gmap string val) (invocationId toolError : val) (s : Session) :
  has_string_form (field fields "toolName") = false →
  ∃ e, tool_catch (VObj fields) invocationId toolError s =
         mkOutcome s [] (Throw e).
Proof.
  intros Hname.
  assert (template (field fields "toolName") =
            Throw (TypeError "Cannot convert object to primitive value"))
    as Hthrow by (unfold template; by rewrite Hname).
  js_unfold.
  destruct (member toolError "response") as [response|e] eqn:Hresponse;
    js_eval; [|eauto].
  destruct (truthy response); js_eval; rewrite ?Hthrow; js_eval; [|eauto].
  destruct (member response "data") as [data|e]; js_eval;
    rewrite ?Hthrow; js_eval; eauto.
Qed.

(** Reading [toolError.response] of [undefined] or [null] throws inside the
    [catch] block: nothing is sent, and the exception leaves the listener. *)
Lemma tool_catch_escapes
      (message invocationId toolError : val) (s : Session) :
  toolError = VUndefined ∨ toolError = VNull →
  ∃ e, tool_catch message invocationId toolError s = mkOutcome s [] (Throw e).
Proof. intros [-> | ->]; js_run; eauto. Qed.



(** *** Control frames *)

(** A text frame that parses to a [client_tool_invocation] is handled by the
    dispatcher. *)
Lemma text_frame_dispatch
      (data : list Byte.byte) (fields : gmap string val) (s : Session) :
  JSON_parse env (string_of_list_byte data) = Normal (VObj fields) →
  fields !! "type" = Some (VStr "client_tool_invocation") →
  onTextMessage env data s = onToolInvocation env (VObj fields) s.
Proof.
  intros Hparse Htype.
  assert (field fields "type" = VStr "client_tool_invocation") as Hfield.
  { unfold field. by rewrite Htype. }
  unfold onTextMessage, eval, mbind, Js_bind.
  rewrite Hparse. cbn [member]. rewrite Hfield.
  cbn [is_string String.eqb Ascii.eqb Bool.eqb].
  by destruct (onToolInvocation env (VObj fields) s) as [s' acts [[]|e]].
Qed.

(** C6, as amended.  The listener has no [try] around [JSON.parse]: for a
    text frame that does not parse, the SyntaxError leaves the listener as an
    unhandled rejection.  The listener changes no session variable and logs,
    writes and sends nothing; the frames that follow are handled from the
    same state. *)
Theorem unparseable_frame_rejects
        (data : list Byte.byte) (clock : Clock) (e : val) (s : Session)
        (rest : list Event) :
  JSON_parse env (string_of_list_byte data) = Throw e →
  step env (WsMessage data false clock) s = (s, [UnhandledRejection e]) ∧
  run env (WsMessage data false clock :: rest) s =
    ((run env rest s).1, [UnhandledRejection e] :: (run env rest s).2).
Proof.
  intros Hparse.
  assert (step env (WsMessage data false clock) s = (s, [UnhandledRejection e]))
    as Hstep.
  { unfold step, run_async, onMessage, onTextMessage, eval, mbind, Js_bind.
    by rewrite Hparse. }
  split; [done|]. cbn [run]. by rewrite Hstep.
Qed.

(** *** Termination of either leg *)

Lemma backend_close_ends_response (s : Session) :
  step env WsClosed s =
    (s, [ConsoleLog [VStr "WebSocket connection closed"]; ResEnd]).
Proof. reflexivity. Qed.

Lemma backend_error_ends_response (err : val) (s : Session) :
  step env (WsError err) s =
    (s, [ConsoleError [VStr "WebSocket error:"; err]; ResEnd]).
Proof. reflexivity. Qed.

Lemma caller_end_closes_backend (s : Session) :
  step env ReqEnd s =
    (s, [ConsoleLog [VStr "Request stream ended"]; WsClose]).
Proof. reflexivity. Qed.

(** C7.  On a transport error of the caller stream the listener logs the
    error and then evaluates [clearInterval(interval)]; no scope binds
    [interval], so a ReferenceError is thrown before
    [ultravoxWebSocket.close()] is reached and the backend channel is not
    closed. *)
Theorem caller_error_leaves_backend_open (err : val) (s : Session) :
  step env (ReqError err) s =
    (s, [ ConsoleError [VStr "Request error:"; err];
          UncaughtException (ReferenceError "interval is not defined") ]) ∧
  ¬ closes_backend (step env (ReqError err) s).2.
Proof.
  assert (step env (ReqError err) s =
            (s, [ ConsoleError [VStr "Request error:"; err];
                  UncaughtException
                    (ReferenceError "interval is not defined") ])) as Hstep.
  { unfold step, run_sync, onReqError, resolve_identifier.
    rewrite bool_decide_false; [reflexivity|].
    intros Hin. repeat (apply elem_of_cons in Hin as [Hin|Hin];
                        [discriminate Hin|]).
    by apply elem_of_nil in Hin. }
  split; [done|]. rewrite Hstep. unfold closes_backend. cbn [snd].
  intros Hin. repeat (apply elem_of_cons in Hin as [Hin|Hin];
                      [discriminate Hin|]).
  by apply elem_of_nil in Hin.
Qed.

End Properties.

(** C1, as stated, fails on three frames at 1000, 1100 and 1101 ms: the
    third frame is the first one after the flush at 1100 ms, and its own
    arrival flushes it. *)
Lemma flush_within_window_of_previous_flush :
  flush_log three_frames (run sample_env three_frames initial).2 =
    [ (mkClock 1000 1000, false); (mkClock 1100 1100, true);
      (mkClock 1101 1101, true) ] ∧
  ¬ window_respected None
      (flush_log three_frames (run sample_env three_frames initial).2).
Proof.
  split; [reflexivity|]. vm_compute. intros (_ & H & _). by apply H.
Qed.

(** C2, as stated, fails on a session in which one frame arrives and the
    backend then closes: the frame's byte is still in the buffer when the
    response stream is ended. *)
Lemma buffered_bytes_lost_at_close :
  let final := run sample_env one_frame_then_close initial in
  concat final.2 =
    [ ConsoleLog [VStr "First Ultravox audio chunk received, starting delay..."];
      ConsoleLog [VStr "WebSocket connection closed"]; ResEnd ] ∧
  ultravoxChunksQueue final.1 = [Byte.x01] ∧
  ¬ all_bytes_flushed one_frame_then_close final.2.
Proof. repeat split; try reflexivity. vm_compute. discriminate. Qed.

(** ** The dispatcher on the sample tools *)

Lemma string_result_reply_witness :
  avrTransfer_handler VUndefined sample_axios_post (VStr "abc") (obj []) =
    Fulfilled (VStr "Call ended") ∧
  sent (emitted (onToolInvocation sample_env
                                  (VObj (invocation_of "avrTransfer"))
                                  initial)) =
    [ obj [ ("type", VStr "client_tool_result");
            ("result", VStr "Call ended");
            ("responseType", VStr "tool-response");
            ("invocationId", VStr "inv-1") ] ].
Proof.
  split; [reflexivity|].
  apply (string_result_reply
           sample_env (invocation_of "avrTransfer")
           (avrTransfer_handler VUndefined sample_axios_post)
           "Call ended" initial); reflexivity.
Defined.

Lemma structured_result_passthrough_witness :
  ∃ m : gmap string val,
    sent (emitted (onToolInvocation sample_env (VObj (invocation_of "lookup"))
                                    initial)) = [VObj m] ∧
    m !! "invocationId" = Some (VStr "inv-1") ∧
    m !! "agentReaction" = Some (VStr "speaks").
Proof.
  destruct (structured_result_passthrough
              sample_env (invocation_of "lookup") lookup_handler
              (obj [ ("result", VStr "42");
                     ("responseType", VStr "tool-response");
                     ("agentReaction", VStr "speaks");
                     ("invocationId", VStr "forged") ])
              "42" "tool-response" initial)
    as (m & Hsent & Hid & Hfields & _); try reflexivity.
  exists m. split; [exact Hsent|]. split; [exact Hid|].
  apply Hfields; [discriminate | reflexivity].
Defined.

Lemma shape_violation_reply_witness :
  sent (emitted (onToolInvocation sample_env (VObj (invocation_of "empty"))
                                  initial)) =
    [ violation_reply (VStr "inv-1") ].
Proof.
  apply (shape_violation_reply sample_env (invocation_of "empty") empty_handler
                               (obj []) initial);
    try reflexivity; try discriminate.
  intros (text & responseType & Hresult & _). discriminate Hresult.
Defined.

Lemma responseText_record_needs_result_witness :
  avrHangup_handler VUndefined sample_axios_post (VStr "abc") (obj []) =
    Fulfilled (obj [ ("responseText", VStr "Call ended");
                     ("responseType", VStr "tool-response") ]) ∧
  sent (emitted (onToolInvocation sample_env (VObj (invocation_of "avrHangup"))
                                  initial)) =
    [ violation_reply (VStr "inv-1") ].
Proof.
  split; [reflexivity|].
  exact (responseText_record_needs_result
           sample_env (invocation_of "avrHangup")
           (avrHangup_handler VUndefined sample_axios_post)
           (list_to_map [ ("responseText", VStr "Call ended");
                          ("responseType", VStr "tool-response") ])
           "Call ended" "tool-response" initial
           eq_refl eq_refl eq_refl eq_refl).
Defined.


Lemma unparseable_frame_rejects_witness :
  step sample_env
       (WsMessage (list_byte_of_string "{oops") false (mkClock 0 0)) initial =
    (initial,
     [ UnhandledRejection
         (VErr "SyntaxError" "Unexpected token in JSON: {oops") ]).
Proof.
  apply (unparseable_frame_rejects
           sample_env (list_byte_of_string "{oops") (mkClock 0 0)
           (VErr "SyntaxError" "Unexpected token in JSON: {oops") initial []).
  reflexivity.
Defined.

(** C3.  The tool [foo] has no file in [avr_tools/] or [tools/]:
    [getToolHandler] throws, so the reply comes from the [catch] block, with
    [errorType = "implementation-error"] and the Error object as
    [errorMessage], not from the branch that reports
    [errorType = "undefined"].  No handler is called. *)
Theorem unregistered_tool_reported_as_implementation_error :
  let acts :=
    emitted (onToolInvocation sample_env (VObj (invocation_of "foo")) initial) in
  avr_tools sample_env !! "foo.js" = None ∧
  tools sample_env !! "foo.js" = None ∧
  acts =
    [ ConsoleError [ VStr "[Error executing tool foo:";
                     not_found (VStr "foo") ];
      WsSendJSON (error_reply (not_found (VStr "foo")) (VStr "inv-1")) ] ∧
  invoked acts = [] ∧
  ¬ reported_undefined "foo" acts.
Proof.
  intros acts.
  assert (acts =
    [ ConsoleError [ VStr "[Error executing tool foo:";
                     not_found (VStr "foo") ];
      WsSendJSON (error_reply (not_found (VStr "foo")) (VStr "inv-1")) ])
    as Hacts.
  { exact (unresolved_tool_reply sample_env (invocation_of "foo") initial
                                 eq_refl eq_refl eq_refl). }
  split; [reflexivity|]. split; [reflexivity|]. split; [exact Hacts|].
  rewrite Hacts. split; [reflexivity|].
  intros (_ & m & text & Hsent & Htype & _).
  injection Hsent as <-. discriminate Htype.
Qed.

(** C4, as stated, fails for a handler that returns an object with no
    properties: the diagnostic that is sent begins with ["Client tool result
    must be"] and quotes the two property names, so it is not the text that
    the specification fixes.  It also fails for a handler that returns
    nothing: reading [result.result] throws, and the [errorMessage] is the
    TypeError object. *)
Lemma violation_diagnostic_differs :
  let empty :=
    emitted (onToolInvocation sample_env (VObj (invocation_of "empty"))
                              initial) in
  let silent :=
    emitted (onToolInvocation sample_env (VObj (invocation_of "silent"))
                              initial) in
  sent empty = [violation_reply (VStr "inv-1")] ∧
  ¬ reported_violation spec_contract_diagnostic empty ∧
  sent silent =
    [ error_reply
        (TypeError "Cannot read properties of undefined (reading 'result')")
        (VStr "inv-1") ] ∧
  ¬ reported_violation spec_contract_diagnostic silent.
Proof.
  intros empty silent.
  assert (sent empty = [violation_reply (VStr "inv-1")]) as Hempty
    by reflexivity.
  assert (sent silent =
            [ error_reply
                (TypeError
                   "Cannot read properties of undefined (reading 'result')")
                (VStr "inv-1") ]) as Hsilent by reflexivity.
  repeat split; try done.
  - intros (m & Hsent & _ & Hmessage). rewrite Hempty in Hsent.
    injection Hsent as <-. discriminate Hmessage.
  - intros (m & Hsent & _ & Hmessage). rewrite Hsilent in Hsent.
    injection Hsent as <-. discriminate Hmessage.
Qed.

(** C5.  The tool [abort] rejects with [undefined]: the [catch] block, which
    is there to send the error reply, throws while it reads
    [toolError.response], so nothing is sent for the invocation.  The tool
    [retype] returns a structured result that names a [type]: the spread
    [...result] comes after the [type] of the message and replaces it, so
    the one message sent back is not a [client_tool_result].  Either way no
    [client_tool_result] with the [invocationId] answers the invocation. *)
Theorem reply_lost_or_retyped :
  let retyped :=
    emitted (onToolInvocation sample_env (VObj (invocation_of "retype"))
                              initial) in
  let aborted :=
    emitted (onToolInvocation sample_env (VObj (invocation_of "abort"))
                              initial) in
  sent retyped =
    [ obj [ ("type", VStr "ping");
            ("result", VStr "ok");
            ("responseType", VStr "tool-response");
            ("invocationId", VStr "inv-1") ] ] ∧
  ¬ one_result_sent (VStr "inv-1") retyped ∧
  sent aborted = [] ∧
  ¬ one_result_sent (VStr "inv-1") aborted.
Proof.
  intros retyped aborted.
  assert (sent retyped =
            [ obj [ ("type", VStr "ping");
                    ("result", VStr "ok");
                    ("responseType", VStr "tool-response");
                    ("invocationId", VStr "inv-1") ] ]) as Hretyped
    by reflexivity.
  assert (sent aborted = []) as Haborted by reflexivity.
  repeat split; try done.
  - intros (m & Hsent & Htype & _). rewrite Hretyped in Hsent.
    injection Hsent as <-. discriminate Htype.
  - intros (m & Hsent & _). rewrite Haborted in Hsent. discriminate Hsent.
Qed.

(** C6, as stated, fails for the text frame [{oops]: the SyntaxError of
    [JSON.parse] leaves the listener, and no log line is written. *)
Lemma unparseable_frame_escapes :
  let now :=
    step sample_env
         (WsMessage (list_byte_of_string "{oops") false (mkClock 0 0))
         initial in
  now.2 =
    [ UnhandledRejection
        (VErr "SyntaxError" "Unexpected token in JSON: {oops") ] ∧
  logged now.2 = [] ∧
  ¬ discarded_quietly initial now.
Proof.
  intros now. repeat split; try reflexivity.
  intros (_ & Hescaped & _). discriminate Hescaped.
Qed.

(** C8, as stated, fails for the value that the repository's own
    [avrHangup] handler returns when the hangup succeeds: a record with
    string [responseText] and [responseType].  It has no [result], and the
    reply is the contract violation. *)
Lemma avrHangup_result_rejected :
  let acts :=
    emitted (onToolInvocation sample_env (VObj (invocation_of "avrHangup"))
                              initial) in
  avrHangup_handler VUndefined sample_axios_post (VStr "abc") (obj []) =
    Fulfilled (obj [ ("responseText", VStr "Call ended");
                     ("responseType", VStr "tool-response") ]) ∧
  sent acts = [violation_reply (VStr "inv-1")] ∧
  ¬ accepted_as_success acts.
Proof.
  intros acts.
  assert (sent acts = [violation_reply (VStr "inv-1")]) as Hacts
    by reflexivity.
  repeat split; try done.
  intros (m & Hsent & Htype). rewrite Hacts in Hsent.
  injection Hsent as <-. discriminate Htype.
Qed.

(** * Further properties of the relay *)

(** ** What the listeners emit *)

Lemma emits_mret (P : Action → Prop) {A : Type} (a : A) :
  emits_only P (mret a).
Proof. intros s. constructor. Qed.

Lemma emits_eval (P : Action → Prop) {A : Type} (c : completion A) :
  emits_only P (eval c).
Proof. intros s. constructor. Qed.

Lemma emits_gets (P : Action → Prop) {A : Type} (f : Session → A) :
  emits_only P (gets f).
Proof. intros s. constructor. Qed.

Lemma emits_modify (P : Action → Prop) (f : Session → Session) :
  emits_only P (modify f).
Proof. intros s. constructor. Qed.

Lemma emits_throw (P : Action → Prop) {A : Type} (e : val) :
  emits_only P (@throw A e).
Proof. intros s. constructor. Qed.

Lemma emits_emit (P : Action → Prop) (a : Action) :
  P a → emits_only P (emit a).
Proof. intros Ha s. by repeat constructor. Qed.

Lemma emits_bind (P : Action → Prop) {A B : Type} (m : Js A) (k : A → Js B) :
  emits_only P m → (∀ a, emits_only P (k a)) → emits_only P (m ≫= k).
Proof.
  intros Hm Hk s. specialize (Hm s). unfold mbind, Js_bind.
  destruct (m s) as [s1 acts1 [a|e]]; simpl in *; [|done].
  specialize (Hk a s1). destruct (k a s1) as [s2 acts2 r]; simpl in *.
  by apply Forall_app.
Qed.

Lemma emits_try_catch (P : Action → Prop) {A : Type}
      (body : Js A) (handler : val → Js A) :
  emits_only P body → (∀ e, emits_only P (handler e)) →
  emits_only P (try_catch body handler).
Proof.
  intros Hm Hk s. specialize (Hm s). unfold try_catch.
  destruct (body s) as [s1 acts1 [a|e]]; simpl in *; [done|].
  specialize (Hk e s1). destruct (handler e s1) as [s2 acts2 r]; simpl in *.
  by apply Forall_app.
Qed.

Ltac emits_step side :=
  first
    [ apply emits_mret | apply emits_eval | apply emits_gets
    | apply emits_modify | apply emits_throw
    | apply emits_emit; side
    | apply emits_bind; [| intros ?]
    | apply emits_try_catch; [| intros ?]
    | match goal with
      | |- emits_only _ (if ?b then _ else _) => destruct b
      | |- emits_only _ (match ?x with _ => _ end) => destruct x
      end ].

Ltac emits side := repeat emits_step side.

Lemma run_async_emits (P : Action → Prop) (listener : Js unit) (s : Session) :
  emits_only P listener → (∀ e, P (UnhandledRejection e)) →
  Forall P (run_async listener s).2.
Proof.
  intros H Hrej. specialize (H s). unfold run_async.
  destruct (listener s) as [s1 acts [[]|e]]; simpl in *; [done|].
  apply Forall_app. split; [done|]. by repeat constructor.
Qed.

Lemma run_sync_emits (P : Action → Prop) (listener : Js unit) (s : Session) :
  emits_only P listener → (∀ e, P (UncaughtException e)) →
  Forall P (run_sync listener s).2.
Proof.
  intros H Hrej. specialize (H s). unfold run_sync.
  destruct (listener s) as [s1 acts [[]|e]]; simpl in *; [done|].
  apply Forall_app. split; [done|]. by repeat constructor.
Qed.

Section RelayProperties.

Variable env : Environment.

Lemma onToolInvocation_emits (P : Action → Prop) (message : val) :
  (∀ args, P (ConsoleLog args)) → (∀ args, P (ConsoleError args)) →
  (∀ m, P (WsSendJSON m)) → (∀ u p, P (InvokeHandler u p)) →
  emits_only P (onToolInvocation env message).
Proof.
  intros Hlog Herror Hsend Hcall.
  unfold onToolInvocation, tool_try, tool_catch, send_json, console_log,
    console_error, shape_rejected, call_handler.
  emits ltac:(auto).
Qed.

Lemma onMessage_emits (P : Action → Prop)
      (data : list Byte.byte) (isBinary : bool) (clock : Clock) :
  (∀ args, P (ConsoleLog args)) → (∀ args, P (ConsoleError args)) →
  (∀ m, P (WsSendJSON m)) → (∀ u p, P (InvokeHandler u p)) →
  (∀ chunk, P (ResWrite chunk)) →
  emits_only P (onMessage env data isBinary clock).
Proof.
  intros Hlog Herror Hsend Hcall Hwrite.
  unfold onMessage, onBinaryMessage, onTextMessage, console_log, console_error.
  repeat first [ by apply onToolInvocation_emits | emits_step ltac:(auto) ].
Qed.

(** ** Inbound audio *)

Lemma omap_none {A B : Type} (f : A → option B) (l : list A) :
  Forall (λ a, f a = None) l → omap f l = [].
Proof. induction 1 as [|a l Ha _ IH]; [done|]. simpl. by rewrite Ha. Qed.

Lemma forwarded_nil (acts : list Action) :
  Forall (λ a, ∀ chunk, a ≠ WsSendAudio chunk) acts → forwarded acts = [].
Proof.
  intros H. apply omap_none. eapply Forall_impl; [exact H|].
  intros a Ha. destruct a; try done. by destruct (Ha chunk).
Qed.

Lemma step_forwards (ev : Event) (s : Session) :
  forwarded (step env ev s).2 = chunks_while_open [ev].
Proof.
  destruct ev as [|data isBinary clock| |err|chunk [| | |]| |err];
    try reflexivity; apply forwarded_nil.
  - apply run_async_emits; [|done]. by apply onMessage_emits.
Qed.

(** X1.  The audio sent to the backend during a session is exactly the
    sequence of caller chunks that arrived while the channel reported
    [OPEN]: every such chunk is forwarded at once and unchanged, chunks that
    arrive in any other state are dropped, not queued, and no other listener
    sends audio. *)
Theorem inbound_audio_forwarded_while_open (evs : list Event) (s : Session) :
  forwarded (concat (run env evs s).2) = chunks_while_open evs.
Proof.
  revert s. induction evs as [|ev evs IH]; intros s; [done|].
  cbn [run fst snd concat]. unfold forwarded at 1. rewrite omap_app.
  fold (forwarded (step env ev s).2).
  fold (forwarded (concat (run env evs (step env ev s).1).2)).
  rewrite IH, step_forwards. unfold chunks_while_open. simpl.
  by destruct ev as [| | | |chunk [| | |]| |].
Qed.

(** X2.  No frame from the backend, whether audio, a control message, text
    that does not parse, or a tool invocation that fails, ends the caller
    response or closes the backend channel. *)
Theorem backend_frames_end_no_leg
        (data : list Byte.byte) (isBinary : bool) (clock : Clock) (s : Session) :
  Forall (λ a, ¬ ends_a_leg a) (step env (WsMessage data isBinary clock) s).2.
Proof.
  apply run_async_emits.
  - apply onMessage_emits; by intros; intros [|].
  - by intros; intros [|].
Qed.

End RelayProperties.

(** ** Control frames and the session variables *)

Lemma emits_bind_eval (P : Action → Prop) {A B : Type}
      (c : completion A) (k : A → Js B) :
  (∀ a, c = Normal a → emits_only P (k a)) → emits_only P (eval c ≫= k).
Proof.
  intros Hk s. unfold mbind, Js_bind, eval. destruct c as [a|e]; [|constructor].
  specialize (Hk a eq_refl s). by destruct (k a s) as [s2 acts2 r].
Qed.

Lemma sent_nil (acts : list Action) :
  Forall (λ a, ∀ m, a ≠ WsSendJSON m) acts → sent acts = [].
Proof.
  intros H. apply omap_none. eapply Forall_impl; [exact H|].
  intros a Ha. destruct a; try done. by destruct (Ha message).
Qed.

(** Only an object has a [type] that is a string. *)
Lemma type_member_object (v : val) (text : string) :
  member v "type" = Normal (VStr text) →
  ∃ fields, v = VObj fields ∧ fields !! "type" = Some (VStr text).
Proof.
  intros Hv. destruct v as [| | | |s|fields| |]; try discriminate Hv.
  exists fields. split; [done|]. injection Hv as Hv. unfold field in Hv.
  destruct (fields !! "type") as [v|]; simpl in Hv; [by subst | discriminate Hv].
Qed.

Lemma is_string_true (v : val) (text : string) :
  is_string v text = true → v = VStr text.
Proof. destruct v; try done. simpl. by intros ->%String.eqb_eq. Qed.

Lemma keeps_mret {A : Type} (a : A) : keeps_session (mret a).
Proof. done. Qed.

Lemma keeps_eval {A : Type} (c : completion A) : keeps_session (eval c).
Proof. done. Qed.

Lemma keeps_gets {A : Type} (f : Session → A) : keeps_session (gets f).
Proof. done. Qed.

Lemma keeps_throw {A : Type} (e : val) : keeps_session (@throw A e).
Proof. done. Qed.

Lemma keeps_emit (a : Action) : keeps_session (emit a).
Proof. done. Qed.

Lemma keeps_bind {A B : Type} (m : Js A) (k : A → Js B) :
  keeps_session m → (∀ a, keeps_session (k a)) → keeps_session (m ≫= k).
Proof.
  intros Hm Hk s. specialize (Hm s). unfold mbind, Js_bind.
  destruct (m s) as [s1 acts1 [a|e]]; simpl in *; [|done].
  specialize (Hk a s1). destruct (k a s1) as [s2 acts2 r]; simpl in *.
  congruence.
Qed.

Lemma keeps_try_catch {A : Type} (body : Js A) (handler : val → Js A) :
  keeps_session body → (∀ e, keeps_session (handler e)) →
  keeps_session (try_catch body handler).
Proof.
  intros Hm Hk s. specialize (Hm s). unfold try_catch.
  destruct (body s) as [s1 acts1 [a|e]]; simpl in *; [done|].
  specialize (Hk e s1). destruct (handler e s1) as [s2 acts2 r]; simpl in *.
  congruence.
Qed.

Ltac keeps_step :=
  first
    [ apply keeps_mret | apply keeps_eval | apply keeps_gets
    | apply keeps_throw | apply keeps_emit
    | apply keeps_bind; [| intros ?]
    | apply keeps_try_catch; [| intros ?]
    | match goal with
      | |- keeps_session (if ?b then _ else _) => destruct b
      | |- keeps_session (match ?x with _ => _ end) => destruct x
      end ].

Section ControlFrames.

Variable env : Environment.

(** X3.  The dispatcher assigns to no session variable: whatever the tool,
    its handler and the handler's outcome, the buffer, the first-chunk flag,
    the reference point and [callId] are as before. *)
Theorem dispatch_keeps_session (message : val) (s : Session) :
  post (onToolInvocation env message s) = s.
Proof.
  revert s. change (keeps_session (onToolInvocation env message)).
  unfold onToolInvocation, tool_try, tool_catch, send_json, console_log,
    console_error, shape_rejected, call_handler.
  repeat keeps_step.
Qed.

Lemma text_frame_quiet (data : list Byte.byte) :
  (∀ fields,
     JSON_parse env (string_of_list_byte data) = Normal (VObj fields) →
     fields !! "type" ≠ Some (VStr "client_tool_invocation")) →
  emits_only (λ a, ∀ m, a ≠ WsSendJSON m) (onTextMessage env data).
Proof.
  intros Hother. unfold onTextMessage.
  apply emits_bind_eval. intros message Hparse.
  apply emits_bind_eval. intros type Htype.
  destruct (is_string type "client_tool_invocation") eqn:Htool.
  - apply is_string_true in Htool as ->.
    apply type_member_object in Htype as (fields & -> & Hfields).
    by destruct (Hother fields Hparse).
  - unfold console_log, console_error. emits ltac:(done).
Qed.

(** X4.  A control message is sent to the backend only in answer to a text
    frame that parses to an object whose [type] is
    [client_tool_invocation]: no other frame and no caller event makes the
    relay send one. *)
Theorem only_tool_invocations_are_answered (ev : Event) (s : Session) :
  sent (step env ev s).2 ≠ [] →
  ∃ data clock fields,
    ev = WsMessage data false clock ∧
    JSON_parse env (string_of_list_byte data) = Normal (VObj fields) ∧
    fields !! "type" = Some (VStr "client_tool_invocation").
Proof.
  intros Hsent.
  destruct ev as [|data [|] clock| |err|chunk [| | |]| |err];
    try (by destruct Hsent).
  - destruct Hsent. apply sent_nil.
    apply run_async_emits; [|done].
    unfold onMessage, onBinaryMessage, console_log. emits ltac:(done).
  - destruct (JSON_parse env (string_of_list_byte data)) as [message|e]
      eqn:Hparse.
    + destruct (member message "type") as [type|e] eqn:Htype.
      * destruct (is_string type "client_tool_invocation") eqn:Htool.
        -- apply is_string_true in Htool as ->.
           apply type_member_object in Htype as (fields & -> & Hfields).
           by exists data, clock, fields.
        -- destruct Hsent. apply sent_nil. apply run_async_emits; [|done].
           apply text_frame_quiet. intros fields Hfields Hinvocation.
           rewrite Hparse in Hfields. injection Hfields as ->.
           simpl in Htype. injection Htype as <-.
           unfold field in Htool. by rewrite Hinvocation in Htool.
      * destruct Hsent. apply sent_nil. apply run_async_emits; [|done].
        apply text_frame_quiet. intros fields Hfields.
        rewrite Hparse in Hfields. injection Hfields as ->. discriminate Htype.
    + destruct Hsent. apply sent_nil. apply run_async_emits; [|done].
      apply text_frame_quiet. intros fields Hfields. congruence.
Qed.

End ControlFrames.

Lemma only_tool_invocations_are_answered_witness :
  ∃ data clock fields,
    WsMessage (list_byte_of_string greet_invocation_text) false (mkClock 0 0) =
      WsMessage data false clock ∧
    JSON_parse wire_env (string_of_list_byte data) = Normal (VObj fields) ∧
    fields !! "type" = Some (VStr "client_tool_invocation").
Proof.
  apply (only_tool_invocations_are_answered
           wire_env
           (WsMessage (list_byte_of_string greet_invocation_text) false
                      (mkClock 0 0))
           initial).
  vm_compute. discriminate.
Defined.

Section CallTracking.

Variable env : Environment.

Lemma onToolInvocation_keeps (message : val) :
  keeps_session (onToolInvocation env message).
Proof.
  unfold onToolInvocation, tool_try, tool_catch, send_json, console_log,
    console_error, shape_rejected, call_handler.
  repeat keeps_step.
Qed.

Lemma post_bind_eval {A B : Type} (c : completion A) (k : A → Js B)
      (s : Session) :
  post ((eval c ≫= k) s) =
  match c with Normal a => post (k a s) | Throw _ => s end.
Proof.
  unfold mbind, Js_bind, eval. destruct c as [a|e]; [|done].
  by destruct (k a s).
Qed.

Lemma onTextMessage_post (data : list Byte.byte) (clock : Clock) (s : Session) :
  post (onTextMessage env data s) =
  match announced_callId env (WsMessage data false clock) with
  | Some id => set_callId id s
  | None => s
  end.
Proof.
  unfold onTextMessage, announced_callId. rewrite post_bind_eval.
  destruct (JSON_parse env (string_of_list_byte data)) as [message|e]; [|done].
  rewrite post_bind_eval.
  destruct message as [| |b|n|text|fields|items|name msg];
    cbn [member]; try done.
  all: try (destruct (is_string (field fields "type") "call_started");
            [reflexivity|]).
  all: repeat match goal with
         | |- context [String.eqb ?a ?b] => destruct (String.eqb a b)
         end.
  all: cbn [is_string]; refine ((_ : keeps_session _) s);
    unfold console_log, console_error;
    repeat first [apply onToolInvocation_keeps | keeps_step].
Qed.

Lemma step_callId (ev : Event) (s : Session) :
  callId (step env ev s).1 = default (callId s) (announced_callId env ev).
Proof.
  destruct ev as [|data [|] clock| |err|chunk [| | |]| |err];
    try reflexivity.
  - unfold step, run_async, onMessage. by rewrite onBinaryMessage_eq.
  - pose proof (onTextMessage_post data clock s) as Hpost.
    set (announced := announced_callId env (WsMessage data false clock)) in *.
    unfold step, run_async, onMessage.
    destruct (onTextMessage env data s) as [s1 acts [[]|e]];
      cbn [post fst] in *; subst s1; by destruct announced.
Qed.

(** X5.  At every point of a session [callId] is the [callId] of the most
    recent [call_started] control frame, or [null] when there has been none;
    no other frame, no tool invocation and no caller event changes it. *)
Theorem callId_follows_call_started (evs : list Event) :
  callId (run env evs initial).1 =
  foldl (λ id ev, default id (announced_callId env ev)) VNull evs.
Proof.
  change VNull with (callId initial). generalize initial.
  induction evs as [|ev evs IH]; intros s; [done|].
  cbn [run fst foldl]. by rewrite IH, step_callId.
Qed.

(** ** The writes of a session *)

Lemma run_written (evs : list Event) (s : Session) :
  written (concat (run env evs s).2) =
  chunks (reference s (binary_frames evs)) (ultravoxChunksQueue s)
         (binary_frames evs).
Proof.
  revert s. induction evs as [|ev evs IH]; intros s; [done|].
  cbn [run fst snd concat]. rewrite written_app, IH, binary_frames_cons.
  destruct (event_cases ev) as [(data & clock & ->) | Hother].
  - destruct (step_binary env data clock s) as (Hq & Hfirst & Hstart & Hout).
    rewrite Hq, Hout.
    change (binary_frames [WsMessage data true clock]) with [(data, clock)].
    assert (reference (step env (WsMessage data true clock) s).1
              (binary_frames evs) = reference s [(data, clock)]) as ->.
    { unfold reference at 1. by rewrite Hfirst, Hstart. }
    assert (reference s ([(data, clock)] ++ binary_frames evs) =
            reference s [(data, clock)]) as ->.
    { unfold reference. by destruct (isFirstUltravoxChunk s). }
    cbn [app chunks fst snd]. by destruct (window_elapsed _ _).
  - destruct (step_other env ev s Hother) as [Hstate Hout].
    rewrite (reference_audio_state _ _ _ Hstate), Hout, Hother.
    by apply audio_state_inv in Hstate as (-> & _ & _).
Qed.

Lemma chunks_buffering (ref : option Z) (queue : list Byte.byte)
      (before rest : list (list Byte.byte * Clock)) :
  Forall (λ frame, window_elapsed ref (at_check frame.2) = false) before →
  chunks ref queue (before ++ rest) =
  chunks ref (queue ++ concat (before.*1)) rest.
Proof.
  intros H. revert queue. induction H as [|frame before Hframe _ IH];
    intros queue; simpl.
  - by rewrite app_nil_r.
  - by rewrite Hframe, IH, <- app_assoc.
Qed.

Lemma chunks_passing (ref : option Z) (after : list (list Byte.byte * Clock)) :
  Forall (λ frame, window_elapsed ref (at_check frame.2) = true) after →
  chunks ref [] after = after.*1.
Proof.
  induction 1 as [|frame after Hframe _ IH]; simpl; [done|].
  by rewrite Hframe, IH.
Qed.

Lemma window_elapsed_later (ref : option Z) (now later : Z) :
  window_elapsed ref now = true → now ≤ later →
  window_elapsed ref later = true.
Proof.
  rewrite !window_elapsed_true. intros (t & -> & Ht & Hnow) Hlater.
  exists t. repeat split; [done|lia].
Qed.

(** X6.  With a clock that does not run backwards after the first flush, the
    caller receives one coalesced write, holding every frame up to and
    including the first one that arrives 100 ms or more after the session's
    first frame, and from then on each frame as a write of its own, on
    arrival. *)
Theorem one_coalesced_write_then_pass_through
        (evs : list Event) (before after : list (list Byte.byte * Clock))
        (frame : list Byte.byte * Clock) :
  let ref := Some (at_mark (default frame (head before)).2) in
  binary_frames evs = before ++ frame :: after →
  Forall (λ g, window_elapsed ref (at_check g.2) = false) before →
  window_elapsed ref (at_check frame.2) = true →
  Forall (λ g, at_check frame.2 ≤ at_check g.2) after →
  written (concat (run env evs initial).2) =
    (concat (before.*1) ++ frame.1) :: after.*1.
Proof.
  intros ref Hframes Hbefore Hframe Hafter.
  rewrite run_written, Hframes.
  assert (reference initial (before ++ frame :: after) = ref) as ->.
  { unfold reference, ref. simpl. by destruct before. }
  rewrite chunks_buffering by done. cbn [chunks app]. rewrite Hframe. f_equal.
  apply chunks_passing. eapply Forall_impl; [exact Hafter|].
  intros g Hg. by eapply window_elapsed_later.
Qed.

End CallTracking.

Lemma one_coalesced_write_then_pass_through_witness :
  written (concat (run sample_env three_frames initial).2) =
    [ [Byte.x01; Byte.x02]; [Byte.x03] ].
Proof.
  apply (one_coalesced_write_then_pass_through
           sample_env three_frames
           [([Byte.x01], mkClock 1000 1000)]
           [([Byte.x03], mkClock 1101 1101)]
           ([Byte.x02], mkClock 1100 1100)).
  - reflexivity.
  - by repeat constructor.
  - reflexivity.
  - repeat constructor. simpl. lia.
Defined.

(** ** Frames at the edge of the control protocol *)

Ltac dispatch_unfold :=
  unfold onTextMessage, onToolInvocation, tool_try, tool_catch, try_catch,
    shape_rejected, call_handler, send_json, console_log, console_error,
    eval, emit, throw, gets, modify, mbind, Js_bind, mret, Js_ret.

Ltac dispatch_eval :=
  cbn [post emitted result app member export_truthy truthy negb typeof
       String.eqb Ascii.eqb Bool.eqb is_string
       sent invoked escaped logged written omap list_omap fst snd].

Lemma is_string_false (v : val) (text : string) :
  v ≠ VStr text → is_string v text = false.
Proof.
  intros Hv. destruct v as [| | | |s| | |]; try done. simpl.
  apply String.eqb_neq. congruence.
Qed.

Section EdgeFrames.

Variable env : Environment.

(** X7.  A [transcript] frame marked [final] whose [role] is not a string
    makes the listener throw at [message.role.toUpperCase()]: nothing is
    logged and the TypeError leaves the listener as an unhandled rejection. *)
Theorem final_transcript_needs_string_role
        (data : list Byte.byte) (clock : Clock) (fields : gmap string val)
        (s : Session) :
  JSON_parse env (string_of_list_byte data) = Normal (VObj fields) →
  fields !! "type" = Some (VStr "transcript") →
  truthy (field fields "final") = true →
  (∀ role, field fields "role" ≠ VStr role) →
  ∃ text,
    step env (WsMessage data false clock) s =
      (s, [UnhandledRejection (TypeError text)]).
Proof.
  intros Hparse Htype Hfinal Hrole.
  assert (field fields "type" = VStr "transcript") as Hfield.
  { unfold field. by rewrite Htype. }
  unfold step, run_async, onMessage. dispatch_unfold. rewrite Hparse.
  cbn [member]. rewrite Hfield. dispatch_eval. rewrite Hfinal.
  destruct (field fields "role") as [| |b|n|role|record|items|name message]
    eqn:Hr; try (eexists; reflexivity).
  by destruct (Hrole role).
Qed.

(** X8.  A text frame that parses to anything whose [type] is not one of the
    six that the listener names (an object of another type or without one, a
    number, a string, an array) is logged once and has no other effect. *)
Theorem unknown_frame_only_logged
        (data : list Byte.byte) (clock : Clock) (message type : val)
        (s : Session) :
  JSON_parse env (string_of_list_byte data) = Normal message →
  member message "type" = Normal type →
  Forall (λ known, type ≠ VStr known) recognized_types →
  step env (WsMessage data false clock) s =
    (s, [ConsoleLog [VStr "Received message type:"; type]]).
Proof.
  intros Hparse Htype Hunknown.
  unfold step, run_async, onMessage, onTextMessage, eval, mbind, Js_bind.
  rewrite Hparse, Htype.
  repeat (apply Forall_cons in Hunknown as [H Hunknown];
          rewrite (is_string_false _ _ H); clear H).
  reflexivity.
Qed.

(** ** The dispatcher, continued *)

(** X9.  When the handler rejects with a reason other than [undefined] and
    [null], the handler has been called once, the failure is logged, and one
    [implementation-error] reply is sent whose [errorMessage] is
    [reason.response.data] if the reason has a truthy [response] (the shape
    of a failed request of axios) and the reason itself otherwise; the
    listener completes normally. *)
Theorem handler_rejection_reply
        (fields : gmap string val) (f : Handler) (reason detail : val)
        (s : Session) :
  getToolHandler env (field fields "toolName") = Normal (ExportFunction f) →
  f (uuid env) (field fields "parameters") = Rejected reason →
  error_detail reason = Normal detail →
  onToolInvocation env (VObj fields) s =
    mkOutcome s
      [ ConsoleLog [ VStr (">> Tool call: " +:+
                           ToString (field fields "toolName"));
                     uuid env; field fields "parameters" ];
        InvokeHandler (uuid env) (field fields "parameters");
        ConsoleError [ VStr ("[Error executing tool " +:+
                             ToString (field fields "toolName") +:+ ":");
                       detail ];
        WsSendJSON (error_reply detail (field fields "invocationId")) ]
      (Normal ()).
Proof.
  intros Hresolve Hreject Hdetail.
  pose proof (resolved_name_converts env _ _ Hresolve) as Hname.
  dispatch_unfold. dispatch_eval.
  rewrite Hresolve. dispatch_eval. rewrite !Hname. dispatch_eval.
  rewrite Hreject. dispatch_eval.
  unfold error_detail, mbind, completion_bind, mret, completion_ret in Hdetail.
  destruct (member reason "response") as [response|e]; [|discriminate Hdetail].
  destruct (truthy response).
  - rewrite Hdetail. reflexivity.
  - injection Hdetail as <-. reflexivity.
Qed.

End EdgeFrames.

Lemma final_transcript_needs_string_role_witness :
  ∃ text,
    step wire_env
         (WsMessage (list_byte_of_string transcript_text) false (mkClock 0 0))
         initial =
      (initial, [UnhandledRejection (TypeError text)]).
Proof.
  apply (final_transcript_needs_string_role
           wire_env (list_byte_of_string transcript_text) (mkClock 0 0)
           (list_to_map [ ("type", VStr "transcript");
                          ("final", VBool true) ])
           initial); try reflexivity.
  intros role. discriminate.
Defined.

Lemma unknown_frame_only_logged_witness :
  step sample_env (WsMessage (list_byte_of_string "[]") false (mkClock 0 0))
       initial =
    (initial, [ConsoleLog [VStr "Received message type:"; VUndefined]]).
Proof.
  apply (unknown_frame_only_logged
           sample_env (list_byte_of_string "[]") (mkClock 0 0)
           (VArr []) VUndefined initial); try reflexivity.
  repeat constructor; discriminate.
Defined.

Lemma handler_rejection_reply_witness :
  sent (emitted (onToolInvocation wire_env (VObj (invocation_of "failing"))
                                  initial)) =
    [ error_reply (VStr "busy") (VStr "inv-1") ].
Proof.
  rewrite (handler_rejection_reply
             wire_env (invocation_of "failing") failing_handler
             (obj [ ("message", VStr "Request failed");
                    ("response", obj [ ("status", VNum 500);
                                       ("data", VStr "busy") ]) ])
             (VStr "busy") initial eq_refl eq_refl eq_refl).
  reflexivity.
Defined.

(** ** The tool modules of the repository *)

Lemma error_during_fulfils (what : string) (error message : val) :
  member error "message" = Normal message →
  has_string_form message = true →
  error_during what error =
    Fulfilled (VStr ("Error during " +:+ what +:+ ": " +:+ ToString message)).
Proof.
  intros Hmessage Hprints. unfold error_during, mbind, completion_bind.
  by rewrite Hmessage, (template_string_form _ Hprints).
Qed.





Section ToolModules.

Variable AMI_URL : val.
Variable axios_post : string → val → completion val.

(** A request of axios rejects with an error, whose [message] is a value
    that a template literal prints (it is a string). *)
Hypothesis axios_rejects_with_errors :
  ∀ url body e,
    axios_post url body = Throw e →
    ∃ message, member e "message" = Normal message ∧
               has_string_form message = true.




End ToolModules.



(** * storage.js and utils/api.js *)

Lemma Map_get_set (key : string) (data : val) (entries : list (string * val)) :
  Map_get key (Map_set key data entries) = data.
Proof.
  induction entries as [|[k v] rest IH]; simpl.
  - by rewrite String.eqb_refl.
  - destruct (String.eqb k key) eqn:Hk; simpl; by rewrite Hk.
Qed.

Lemma Map_get_set_ne (key key' : string) (data : val)
      (entries : list (string * val)) :
  key ≠ key' → Map_get key' (Map_set key data entries) = Map_get key' entries.
Proof.
  intros Hne. induction entries as [|[k v] rest IH]; simpl.
  - by apply String.eqb_neq in Hne as ->.
  - destruct (String.eqb k key) eqn:Hk; simpl; [|by rewrite IH].
    apply String.eqb_eq in Hk as ->. by apply String.eqb_neq in Hne as ->.
Qed.

Lemma Map_get_delete_ne (key key' : string) (entries : list (string * val)) :
  key ≠ key' → Map_get key' (Map_delete key entries) = Map_get key' entries.
Proof.
  intros Hne. induction entries as [|[k v] rest IH]; simpl; [done|].
  destruct (String.eqb k key) eqn:Hk; simpl; [|by rewrite IH].
  apply String.eqb_eq in Hk as ->. by apply String.eqb_neq in Hne as ->.
Qed.

Lemma Map_get_missing (key : string) (entries : list (string * val)) :
  key ∉ entries.*1 → Map_get key entries = VUndefined.
Proof.
  induction entries as [|[k v] rest IH]; [done|].
  rewrite fmap_cons. cbn [fst Map_get].
  intros Hnot. apply not_elem_of_cons in Hnot as [Hne Hnot].
  destruct (String.eqb k key) eqn:Hk; [|by apply IH].
  by apply String.eqb_eq in Hk.
Qed.

Lemma Map_keys_set (key : string) (data : val) (entries : list (string * val)) :
  (Map_set key data entries).*1 =
  if bool_decide (key ∈ entries.*1) then entries.*1 else entries.*1 ++ [key].
Proof.
  induction entries as [|[k v] rest IH]; [done|].
  cbn [Map_set]. destruct (String.eqb k key) eqn:Hk;
    rewrite !fmap_cons; cbn [fst].
  - apply String.eqb_eq in Hk as ->. rewrite bool_decide_true; [done|].
    by left.
  - apply String.eqb_neq in Hk. rewrite IH.
    destruct (bool_decide (key ∈ rest.*1)) eqn:Hin.
    + apply bool_decide_eq_true in Hin. rewrite bool_decide_true; [done|].
      by right.
    + apply bool_decide_eq_false in Hin. rewrite bool_decide_false; [done|].
      intros [->|]%elem_of_cons; done.
Qed.

Lemma Map_keys_delete (key : string) (entries : list (string * val)) :
  NoDup entries.*1 →
  NoDup ((Map_delete key entries).*1) ∧
  (key ∉ (Map_delete key entries).*1) ∧
  ∀ k, k ∈ (Map_delete key entries).*1 → k ∈ entries.*1.
Proof.
  induction entries as [|[k v] rest IH]; intros Hnodup.
  - repeat split; [constructor | by intros ?%elem_of_nil | done].
  - rewrite fmap_cons in Hnodup. cbn [fst] in Hnodup.
    apply NoDup_cons in Hnodup as [Hk Hrest].
    cbn [Map_delete]. destruct (String.eqb k key) eqn:Heq.
    + apply String.eqb_eq in Heq as ->. repeat split; [done..|].
      intros k' ?. rewrite fmap_cons. by right.
    + apply String.eqb_neq in Heq.
      destruct (IH Hrest) as (IH1 & IH2 & IH3).
      rewrite !fmap_cons. cbn [fst]. repeat split.
      * apply NoDup_cons. split; [|done]. intros Hin. by apply Hk, IH3.
      * intros [->|]%elem_of_cons; done.
      * intros k' [->|Hin]%elem_of_cons; [by left|]. right. by apply IH3.
Qed.

Section StorageProperties.

Variable env : Environment.

Lemma Storage_after_NoDup (calls : list StorageCall) :
  NoDup (Storage_keys (Storage_after env calls)).
Proof.
  unfold Storage_after, Storage_keys.
  induction calls as [|c calls IH] using rev_ind; [constructor|].
  rewrite foldl_app. simpl.
  destruct c as [key value|key|]; simpl.
  - unfold Storage_set. rewrite Map_keys_set. case_bool_decide; [done|].
    apply NoDup_app. repeat split; [done| |apply NoDup_singleton].
    intros k Hk ->%list_elem_of_singleton. done.
  - by apply Map_keys_delete.
  - constructor.
Qed.

(** X13.  Whatever was stored before, [get(key)] right after
    [set(key, value)] returns what [JSON.parse] makes of the JSON text of
    [value], and the entries under other keys read as before. *)
Theorem Storage_set_then_get
        (key : string) (value parsed : val) (storage : list (string * val)) :
  value ≠ VUndefined →
  JSON_parse env (JSON_stringify env value) = Normal parsed →
  Storage_get env key (Storage_set env key value storage) = parsed ∧
  ∀ other, key ≠ other →
           Storage_get env other (Storage_set env key value storage) =
           Storage_get env other storage.
Proof.
  intros Hvalue Hparse. unfold Storage_get, Storage_set. split.
  - rewrite Map_get_set. unfold mbind, completion_bind.
    destruct value; try done; simpl; by rewrite Hparse.
  - intros other Hne. by rewrite Map_get_set_ne.
Qed.

Lemma Storage_get_missing (key : string) (entries : list (string * val))
      (e : val) :
  JSON_parse env "undefined" = Throw e →
  key ∉ entries.*1 → Storage_get env key entries = VUndefined.
Proof.
  intros Hparse Hnot. unfold Storage_get. rewrite Map_get_missing by done.
  unfold mbind, completion_bind. simpl. by rewrite Hparse.
Qed.

Lemma Storage_get_removed (calls : list StorageCall) (key : string) (e : val) :
  JSON_parse env "undefined" = Throw e →
  Storage_get env key (Storage_remove key (Storage_after env calls)) =
    VUndefined.
Proof.
  intros Hparse. apply (Storage_get_missing _ _ e Hparse).
  unfold Storage_remove. by apply Map_keys_delete, Storage_after_NoDup.
Qed.

(** X14.  An entry that was never set, was removed, or was cleared reads as
    [undefined]: [JSON.parse(undefined)] throws and [get] returns the raw
    [undefined].  Removing a key leaves the other entries as they are. *)
Theorem Storage_get_absent
        (calls : list StorageCall) (key : string) (e : val) :
  JSON_parse env "undefined" = Throw e →
  let storage := Storage_after env calls in
  Storage_get env key (Storage_remove key storage) = VUndefined ∧
  Storage_get env key (Storage_clear storage) = VUndefined ∧
  (key ∉ Storage_keys storage → Storage_get env key storage = VUndefined) ∧
  ∀ other, key ≠ other →
           Storage_get env other (Storage_remove key storage) =
           Storage_get env other storage.
Proof.
  intros Hparse storage. repeat split.
  - by apply (Storage_get_removed calls key e).
  - apply (Storage_get_missing _ _ e Hparse). by intros ?%elem_of_nil.
  - apply (Storage_get_missing _ _ e Hparse).
  - intros other Hne. unfold Storage_get, Storage_remove.
    by rewrite Map_get_delete_ne.
Qed.

(** X15.  [keys()] never lists a key twice and lists the keys in the order
    in which they were first set: setting a key that is present keeps the
    list as it is, setting a new key appends it. *)
Theorem Storage_keys_in_insertion_order
        (calls : list StorageCall) (key : string) (value : val) :
  let storage := Storage_after env calls in
  NoDup (Storage_keys storage) ∧
  Storage_keys (Storage_set env key value storage) =
    if bool_decide (key ∈ Storage_keys storage)
    then Storage_keys storage
    else Storage_keys storage ++ [key].
Proof.
  intros storage. split; [apply Storage_after_NoDup|]. apply Map_keys_set.
Qed.

(** ** The interceptors *)

(** X16.  The request interceptor adds the header
    [Authorization: Bearer <token>] when the stored [auth] has a truthy
    [success], replacing any [Authorization] header of the request, and
    leaves the other headers and the rest of the configuration as they
    are. *)
Theorem request_interceptor_adds_bearer
        (storage : list (string * val)) (config : AxiosConfig)
        (auth success authorization token : val) :
  Storage_get env "auth" storage = auth →
  member auth "success" = Normal success →
  truthy success = true →
  member auth "authorization" = Normal authorization →
  member authorization "token" = Normal token →
  has_string_form token = true →
  ∃ config',
    request_interceptor env storage config = Normal config' ∧
    config_headers config' !! "Authorization" =
      Some (VStr ("Bearer " +:+ ToString token)) ∧
    (∀ header, header ≠ "Authorization" →
               config_headers config' !! header =
               config_headers config !! header) ∧
    config_other config' = config_other config.
Proof.
  intros Hauth Hsuccess Htruthy Hauthorization Htoken Hprints.
  eexists. split.
  - unfold request_interceptor, mbind, completion_bind, mret, completion_ret.
    rewrite Hauth.
    assert (optional_member auth "success" = Normal success) as ->.
    { destruct auth; try done; discriminate Hsuccess. }
    by rewrite Htruthy, Hauthorization, Htoken,
      (template_string_form _ Hprints).
  - simpl. split; [apply lookup_insert_eq|]. split; [|done].
    intros header Hne. by rewrite lookup_insert_ne.
Qed.

(** Without a stored [auth], or with one whose [success] is falsy, the
    request interceptor returns the configuration unchanged. *)
Lemma request_interceptor_without_auth
        (storage : list (string * val)) (config : AxiosConfig) (success : val) :
  optional_member (Storage_get env "auth" storage) "success" = Normal success →
  truthy success = false →
  request_interceptor env storage config = Normal config.
Proof.
  intros Hsuccess Hfalsy.
  unfold request_interceptor, mbind, completion_bind, mret, completion_ret.
  by rewrite Hsuccess, Hfalsy.
Qed.

(** X17.  After a response with status 401 or 403 the interceptor resolves
    the request with [undefined] instead of rejecting it, and the stored
    [auth] is gone: the requests that follow carry no [Authorization] header
    of the interceptor's. *)
Theorem unauthorized_response_drops_auth
        (calls : list StorageCall) (error response : val) (n : Z) (e : val)
        (config : AxiosConfig) :
  JSON_parse env "undefined" = Throw e →
  member error "response" = Normal response →
  member response "status" = Normal (VNum n) →
  n = 401 ∨ n = 403 →
  let storage := Storage_after env calls in
  let after := response_error_interceptor storage error in
  after.2 = Fulfilled VUndefined ∧
  Storage_get env "auth" after.1.1 = VUndefined ∧
  request_interceptor env after.1.1 config = Normal config.
Proof.
  intros Hparse Hresponse Hstatus Hn storage after.
  assert (after = (Storage_remove "auth" storage,
                   [ConsoleLog [VStr "error:"; VNum n]], Fulfilled VUndefined))
    as ->.
  { unfold after, response_error_interceptor, mbind, completion_bind.
    rewrite Hresponse, Hstatus. simpl. by destruct Hn as [-> | ->]. }
  simpl.
  pose proof (Storage_get_removed calls "auth" e Hparse) as Hgone.
  split; [done|]. split; [exact Hgone|].
  apply (request_interceptor_without_auth _ _ VUndefined); [|done].
  fold storage in Hgone. by rewrite Hgone.
Qed.


End StorageProperties.

Lemma Storage_set_then_get_witness :
  Storage_get login_env "auth" (Storage_set login_env "auth" login []) = login.
Proof.
  apply (Storage_set_then_get login_env "auth" login login []);
    [discriminate | reflexivity].
Defined.

Lemma Storage_get_absent_witness :
  Storage_get sample_env "auth"
    (Storage_remove "auth"
       (Storage_after sample_env [CallSet "auth" (VBool true)])) =
  VUndefined.
Proof.
  apply (Storage_get_absent
           sample_env [CallSet "auth" (VBool true)] "auth"
           (VErr "SyntaxError" "Unexpected token in JSON: undefined")).
  reflexivity.
Defined.

Lemma request_interceptor_adds_bearer_witness :
  ∃ config',
    request_interceptor login_env
      (Storage_set login_env "auth" login []) (mkAxiosConfig ∅ ∅) =
      Normal config' ∧
    config_headers config' !! "Authorization" = Some (VStr "Bearer t0k3n").
Proof.
  destruct (request_interceptor_adds_bearer
              login_env (Storage_set login_env "auth" login [])
              (mkAxiosConfig ∅ ∅) login (VBool true)
              (obj [("token", VStr "t0k3n")]) (VStr "t0k3n")
              eq_refl eq_refl eq_refl eq_refl eq_refl eq_refl)
    as (config' & H1 & H2 & _).
  by exists config'.
Defined.

Lemma unauthorized_response_drops_auth_witness :
  let after :=
    response_error_interceptor
      (Storage_after login_env [CallSet "auth" login])
      (obj [("response", obj [("status", VNum 401)])]) in
  after.2 = Fulfilled VUndefined ∧
  Storage_get login_env "auth" after.1.1 = VUndefined ∧
  request_interceptor login_env after.1.1 (mkAxiosConfig ∅ ∅) =
    Normal (mkAxiosConfig ∅ ∅).
Proof.
  apply (unauthorized_response_drops_auth
           login_env [CallSet "auth" login]
           (obj [("response", obj [("status", VNum 401)])])
           (obj [("status", VNum 401)]) 401
           (VErr "SyntaxError" "Unexpected token in JSON: undefined")
           (mkAxiosConfig ∅ ∅)); try reflexivity.
  by left.
Defined.


(** ** Advertised tools *)

Section AdvertisedTools.

Variable env : Environment.

Lemma loadTools_entry (entry : val) :
  entry ∈ loadTools env ↔
  ∃ file tool, tools env !! file = Some tool ∧ entry = temporaryTool tool.
Proof.
  unfold loadTools. rewrite list_elem_of_fmap. split.
  - intros ([file tool] & -> & H%elem_of_map_to_list). eauto.
  - intros (file & tool & H & ->). exists (file, tool).
    split; [done|]. by apply elem_of_map_to_list.
Qed.

Lemma modelToolName_temporaryTool (tool : ToolModule) :
  modelToolName (temporaryTool tool) = Normal (tool_name tool).
Proof. reflexivity. Qed.


(** X20.  A tool of [tools/] is offered to the model under the [name] that
    its module exports, whatever its file is called.  When no file
    [<name>.js] exists, the model's invocation of the offered tool finds no
    handler: nothing is called, and the one reply is the
    [implementation-error] of the [catch] block. *)
Theorem misnamed_tool_cannot_be_invoked
        (file : string) (tool : ToolModule) (fields : gmap string val)
        (s : Session) :
  tools env !! file = Some tool →
  has_string_form (tool_name tool) = true →
  avr_tools env !! (ToString (tool_name tool) +:+ ".js") = None →
  tools env !! (ToString (tool_name tool) +:+ ".js") = None →
  field fields "toolName" = tool_name tool →
  temporaryTool tool ∈ loadTools env ∧
  modelToolName (temporaryTool tool) = Normal (tool_name tool) ∧
  invoked (emitted (onToolInvocation env (VObj fields) s)) = [] ∧
  sent (emitted (onToolInvocation env (VObj fields) s)) =
    [ error_reply (not_found (tool_name tool)) (field fields "invocationId") ].
Proof.
  intros Hfile Hprints Havr Htools Hname.
  split; [apply loadTools_entry; eauto|].
  split; [apply modelToolName_temporaryTool|].
  pose proof (unresolved_tool_reply env fields s) as Hreply.
  cbv zeta in Hreply. rewrite Hname in Hreply.
  rewrite (Hreply Hprints Havr Htools). split; reflexivity.
Qed.

End AdvertisedTools.


Lemma misnamed_tool_cannot_be_invoked_witness :
  temporaryTool (sample_tool "hello" greet_handler) ∈ loadTools renamed_env ∧
  sent (emitted (onToolInvocation renamed_env (VObj (invocation_of "hello"))
                                  initial)) =
    [ error_reply (not_found (VStr "hello")) (VStr "inv-1") ].
Proof.
  destruct (misnamed_tool_cannot_be_invoked
              renamed_env "hello-tool.js" (sample_tool "hello" greet_handler)
              (invocation_of "hello") initial
              eq_refl eq_refl eq_refl eq_refl eq_refl) as (Hin & _ & _ & Hsent).
  split; [exact Hin | exact Hsent].
Defined.

(** ** Opening a call *)



Section ConnectProperties.

Variable env : Environment.
Variable backend : Backend.

(** X21.  Without [ULTRAVOX_TEMPLATE_CONTEXT] no call can be opened: the
    fallback of [process.env.ULTRAVOX_TEMPLATE_CONTEXT || {}] is an object,
    [JSON.parse] reads its string form ["[object Object]"] and throws, and
    [connectToUltravox] fails before it makes any request, with an error
    whose message is the string form of the parser's error. *)
Theorem connect_without_template_context (uuid : val) (kind message : string) :
  truthy (ULTRAVOX_TEMPLATE_CONTEXT backend) = false →
  JSON_parse env "[object Object]" = Throw (VErr kind message) →
  connectToUltravox env backend uuid =
    ([], Throw (Error (ToString (VErr kind message)))).
Proof.
  intros Hunset Hparse.
  unfold connectToUltravox, connect_try, templateContext, or_else.
  rewrite Hunset. unfold mbind, completion_bind.
  change (template (obj [])) with (Normal (A:=string) "[object Object]").
  cbn beta iota. rewrite Hparse. cbn beta iota.
  reflexivity.
Qed.

(** X22.  When the API answers the request for a call without a [joinUrl]
    (or with an empty one), no socket is opened and the failure reaches the
    caller as an error whose message is
    ["Error: Missing Ultravox joinUrl"]: the [catch] block wraps the error
    that the [try] block threw in a second one. *)
Theorem connect_missing_joinUrl
        (uuid : val) (context context' : gmap string val)
        (response status data joinUrl : val) :
  templateContext env backend = Normal context →
  beforeCall backend uuid context = Normal context' →
  axios_post_calls backend (calls_url backend)
                   (call_request backend uuid context')
                   (call_headers backend) = Normal response →
  member response "status" = Normal status →
  member response "data" = Normal data →
  member data "joinUrl" = Normal joinUrl →
  truthy joinUrl = false →
  connectToUltravox env backend uuid =
    ([ HttpPost (calls_url backend) (call_request backend uuid context')
                (call_headers backend);
       Logged [status; joinUrl] ],
     Throw (Error "Error: Missing Ultravox joinUrl")).
Proof.
  intros Hcontext Hbefore Hpost Hstatus Hdata HjoinUrl Hfalsy.
  unfold connectToUltravox, connect_try, mbind, completion_bind,
    mret, completion_ret.
  rewrite Hcontext. cbn beta iota. rewrite Hbefore. cbn beta iota zeta.
  rewrite Hpost. cbn beta iota. rewrite Hstatus. cbn beta iota.
  rewrite Hdata. cbn beta iota. rewrite HjoinUrl. cbn beta iota.
  rewrite Hfalsy. reflexivity.
Qed.

(** X23.  When the request for a call fails with a response, the error that
    reaches the caller carries the string form of the body of the response
    and nothing else of the failure: for a body that is a JSON object, as
    the API sends, the message is ["[object Object]"]. *)
Theorem connect_failure_hides_response_body
        (uuid : val) (context context' : gmap string val)
        (error response : val) (body : gmap string val) :
  templateContext env backend = Normal context →
  beforeCall backend uuid context = Normal context' →
  axios_post_calls backend (calls_url backend)
                   (call_request backend uuid context')
                   (call_headers backend) = Throw error →
  member error "response" = Normal response →
  truthy response = true →
  member response "data" = Normal (VObj body) →
  body !! "toString" = None →
  connectToUltravox env backend uuid =
    ([ HttpPost (calls_url backend) (call_request backend uuid context')
                (call_headers backend) ],
     Throw (Error "[object Object]")).
Proof.
  intros Hcontext Hbefore Hpost Hresponse Htruthy Hdata Hbody.
  unfold connectToUltravox, connect_try, mbind, completion_bind,
    mret, completion_ret.
  rewrite Hcontext. cbn beta iota. rewrite Hbefore. cbn beta iota zeta.
  rewrite Hpost. cbn beta iota.
  unfold connect_catch, mbind, completion_bind, mret, completion_ret.
  rewrite Hresponse, Htruthy, Hdata.
  unfold new_Error, template, mbind, completion_bind, mret, completion_ret.
  cbn [has_string_form]. by rewrite Hbody.
Qed.


End ConnectProperties.

Lemma mapM_normal {A B : Type} (f : A → completion B) (g : A → B)
      (l : list A) :
  Forall (λ x, f x = Normal (g x)) l → mapM f l = Normal (g <$> l).
Proof.
  induction 1 as [|x l Hx _ IH]; [done|].
  cbn [mapM]. unfold mbind, completion_bind, mret, completion_ret in *.
  cbn [mapM] in IH. by rewrite Hx, IH.
Qed.

Lemma value_of_member (properties : val) :
  properties ≠ VUndefined → properties ≠ VNull →
  member properties "value" = Normal (value_of properties).
Proof. intros H1 H2. unfold value_of. by destruct properties. Qed.

Section TemplateContext.

Variable env : Environment.
Variable backend : Backend.

(** X25.  The template context of a call has the variables of
    [ULTRAVOX_TEMPLATE_CONTEXT], each with the [value] of its properties
    (a variable without one is sent as [undefined]); the variable
    [current_datetime], when there is one, is replaced by the date and the
    time of the call, and is not added when there is none. *)
Theorem templateContext_values (text : string) (variables : gmap string val) :
  ULTRAVOX_TEMPLATE_CONTEXT backend = VStr text →
  text ≠ EmptyString →
  JSON_parse env text = Normal (VObj variables) →
  map_Forall (λ _ properties, properties ≠ VUndefined ∧ properties ≠ VNull)
             variables →
  variables !! "hasOwnProperty" = None →
  templateContext env backend =
    Normal (if bool_decide (is_Some (variables !! "current_datetime"))
            then <["current_datetime" :=
                    VStr (currentDate backend +:+ " " +:+
                          replace_colon (currentTime backend))]>
                   (value_of <$> variables)
            else value_of <$> variables).
Proof.
  intros Hset Htext Hparse Hobjects Hmethod.
  unfold templateContext, or_else. rewrite Hset.
  assert (truthy (VStr text) = true) as ->.
  { simpl. apply negb_true_iff, String.eqb_neq. done. }
  unfold mbind at 1, completion_bind at 1.
  change (template (VStr text)) with (Normal (A:=string) text).
  cbn beta iota. unfold mbind at 1, completion_bind at 1. rewrite Hparse.
  cbn beta iota. cbn [Object_entries own_enumerable].
  unfold mbind at 1, completion_bind at 1. cbn beta iota.
  rewrite (mapM_normal _ (prod_map id value_of)).
  2: { apply Forall_forall. intros [k properties] Hin%elem_of_map_to_list.
       destruct (Hobjects k properties Hin) as [H1 H2]. cbn [fst snd].
       unfold mbind, completion_bind, mret, completion_ret.
       by rewrite (value_of_member _ H1 H2). }
  unfold mbind, completion_bind, mret, completion_ret.
  rewrite list_to_map_fmap, list_to_map_to_list.
  set (values := value_of <$> variables).
  assert (∀ k, is_Some (values !! k) ↔ is_Some (variables !! k)) as Hsame.
  { intros k. unfold values. rewrite lookup_fmap. apply fmap_is_Some. }
  rewrite (bool_decide_ext _ _ (Hsame "hasOwnProperty")).
  rewrite (bool_decide_ext _ _ (Hsame "current_datetime")).
  rewrite Hmethod. rewrite bool_decide_false by (by intros [? ?]). done.
Qed.

End TemplateContext.

Lemma templateContext_values_witness :
  templateContext connect_env (sample_backend (VStr variables_text) (Throw VNull)) =
    Normal (list_to_map
              [ ("caller", VStr "Ana");
                ("current_datetime",
                 VStr "lunes, 2 de noviembre de 2026 10h30") ]).
Proof.
  rewrite (templateContext_values
             connect_env (sample_backend (VStr variables_text) (Throw VNull))
             variables_text sample_variables eq_refl).
  - reflexivity.
  - discriminate.
  - reflexivity.
  - intros k properties Hin. apply elem_of_list_to_map_2 in Hin.
    repeat (apply elem_of_cons in Hin as [[= -> ->] | Hin]; [by split|]).
    by apply elem_of_nil in Hin.
  - reflexivity.
Defined.

Lemma connect_env_context (answer : completion val) :
  templateContext connect_env (sample_backend (VStr variables_text) answer) =
    Normal (list_to_map
              [ ("caller", VStr "Ana");
                ("current_datetime",
                 VStr "lunes, 2 de noviembre de 2026 10h30") ]).
Proof. reflexivity. Qed.

Lemma connect_without_template_context_witness :
  connectToUltravox sample_env (sample_backend VUndefined (Throw VNull))
                    (VStr "abc") =
    ([], Throw (Error "SyntaxError: Unexpected token in JSON: [object Object]")).
Proof.
  exact (connect_without_template_context
           sample_env (sample_backend VUndefined (Throw VNull)) (VStr "abc")
           "SyntaxError" "Unexpected token in JSON: [object Object]"
           eq_refl eq_refl).
Defined.

Lemma connect_missing_joinUrl_witness :
  (connectToUltravox
     connect_env
     (sample_backend (VStr variables_text)
                     (Normal (call_response 201 (obj []))))
     (VStr "abc")).2 =
    Throw (Error "Error: Missing Ultravox joinUrl").
Proof.
  rewrite (connect_missing_joinUrl
             connect_env
             (sample_backend (VStr variables_text)
                             (Normal (call_response 201 (obj []))))
             (VStr "abc") _ _ (call_response 201 (obj [])) (VNum 201) (obj [])
             VUndefined
             (connect_env_context _) eq_refl eq_refl eq_refl eq_refl
             eq_refl eq_refl).
  reflexivity.
Defined.

Lemma connect_failure_hides_response_body_witness :
  (connectToUltravox
     connect_env
     (sample_backend
        (VStr variables_text)
        (Throw (obj [ ("message", VStr "Request failed with status code 400");
                      ("response",
                       obj [ ("status", VNum 400);
                             ("data",
                              obj [("detail", VStr "unknown agent")]) ]) ])))
     (VStr "abc")).2 =
    Throw (Error "[object Object]").
Proof.
  rewrite (connect_failure_hides_response_body
             connect_env
             (sample_backend
                (VStr variables_text)
                (Throw (obj [ ("message",
                               VStr "Request failed with status code 400");
                              ("response",
                               obj [ ("status", VNum 400);
                                     ("data",
                                      obj [("detail",
                                            VStr "unknown agent")]) ]) ])))
             (VStr "abc") _ _ _
             (obj [ ("status", VNum 400);
                    ("data", obj [("detail", VStr "unknown agent")]) ])
             (list_to_map [("detail", VStr "unknown agent")])
             (connect_env_context _) eq_refl eq_refl eq_refl eq_refl
             eq_refl eq_refl).
  reflexivity.
Defined.


(** ** Replies that are lost, and replies that go elsewhere *)

Section LostReplies.

Variable env : Environment.

(** X26.  An invocation whose [toolName] has no string form (the object
    that [JSON.parse] makes of [{"toString":null}], say) is never answered:
    [getToolHandler] throws while it builds the file name, the [catch]
    block throws again at its log line, before its [send], and the
    TypeError leaves the listener.  Nothing is logged or sent, and no
    handler is called. *)
Theorem unprintable_tool_name_is_never_answered
        (fields : gmap string val) (s : Session) :
  has_string_form (field fields "toolName") = false →
  onToolInvocation env (VObj fields) s =
    mkOutcome s []
      (Throw (TypeError "Cannot convert object to primitive value")).
Proof.
  intros Hname.
  assert (template (field fields "toolName") =
            Throw (TypeError "Cannot convert object to primitive value"))
    as Hthrow by (unfold template; by rewrite Hname).
  dispatch_unfold. dispatch_eval.
  rewrite (getToolHandler_unprintable env _ Hname). dispatch_eval.
  unfold TypeError at 1. dispatch_eval. rewrite Hthrow. reflexivity.
Qed.

(** X27.  In the index.js that first dispatched tools, the result of a tool
    does not go back to the backend: nothing is ever sent for an
    invocation.  When the tool resolves to a function that fulfils, the
    JSON text of [{type, result, invocationId}] is written into the caller
    response, among the audio; in every other case nothing is written. *)
Theorem earlier_dispatch_answers_the_caller
        (fields : gmap string val) (s : Session) :
  let acts := emitted (onToolInvocation_v1 env (VObj fields) s) in
  sent acts = [] ∧
  written acts =
    match handler_settlement env fields with
    | Some (Fulfilled content) =>
        [ list_byte_of_string
            (JSON_stringify env
               (obj [ ("type", VStr "client_tool_result");
                      ("result", content);
                      ("invocationId", field fields "invocationId") ])) ]
    | _ => []
    end.
Proof.
  unfold onToolInvocation_v1, handler_settlement.
  dispatch_unfold. dispatch_eval.
  destruct (getToolHandler env (field fields "toolName")) as [[f|v]|e]
    eqn:Hresolve; dispatch_eval;
    try (pose proof (resolved_name_converts env _ _ Hresolve) as Hname;
         rewrite !Hname; dispatch_eval).
  - destruct (f (uuid env) (field fields "parameters")) as [content|reason];
      dispatch_eval; done.
  - destruct (truthy v); dispatch_eval; done.
  - destruct (template (field fields "toolName")); dispatch_eval; done.
Qed.

End LostReplies.

Lemma unprintable_tool_name_is_never_answered_witness :
  onToolInvocation sample_env (VObj unprintable_invocation) initial =
    mkOutcome initial []
      (Throw (TypeError "Cannot convert object to primitive value")).
Proof.
  exact (unprintable_tool_name_is_never_answered
           sample_env unprintable_invocation initial eq_refl).
Defined.

(** ** A hangup that fails *)

(** X28.  When the request of [avrHangup] fails, the model is told nothing of
    an error: the handler returns the text of the failure as its result,
    and the dispatcher sends it as an ordinary [tool-response]. *)
Theorem failed_hangup_is_reported_as_result
        (env : Environment) (AMI_URL : val)
        (axios_post : string → val → completion val)
        (fields : gmap string val) (url : string) (error message : val)
        (s : Session) :
  field fields "toolName" = VStr "avrHangup" →
  avr_tools env !! "avrHangup.js" = Some (avrHangup AMI_URL axios_post) →
  template (ami_url AMI_URL) = Normal url →
  axios_post (url +:+ "/hangup") (obj [("uuid", uuid env)]) = Throw error →
  member error "message" = Normal message →
  has_string_form message = true →
  sent (emitted (onToolInvocation env (VObj fields) s)) =
    [ obj [ ("type", VStr "client_tool_result");
            ("result",
             VStr ("Error during hangup: " +:+ ToString message));
            ("responseType", VStr "tool-response");
            ("invocationId", field fields "invocationId") ] ].
Proof.
  intros Hname Hfile Hurl Hpost Hmessage Hprints.
  assert (getToolHandler env (field fields "toolName") =
            Normal (ExportFunction (avrHangup_handler AMI_URL axios_post)))
    as Hresolve.
  { rewrite Hname.
    pose proof (getToolHandler_cases env (VStr "avrHangup") eq_refl) as Hcases.
    cbv zeta in Hcases.
    change (ToString (VStr "avrHangup") +:+ ".js") with "avrHangup.js"
      in Hcases.
    rewrite Hfile in Hcases.
    destruct Hcases as [(tool & [H | [H _]] & ->) | (H & _ & _)];
      [|done..].
    by injection H as <-. }
  assert (avrHangup_handler AMI_URL axios_post (uuid env)
                            (field fields "parameters") =
            Fulfilled (VStr ("Error during hangup: " +:+ ToString message)))
    as Hreturn.
  { unfold avrHangup_handler, mbind, completion_bind. rewrite Hurl.
    cbn beta iota. rewrite Hpost. cbn beta iota.
    by rewrite (error_during_fulfils _ _ _ Hmessage Hprints). }
  pose proof (resolved_name_converts env _ _ Hresolve) as Hprinted.
  dispatch_unfold. dispatch_eval.
  rewrite Hresolve. dispatch_eval. rewrite !Hprinted. dispatch_eval.
  rewrite Hreturn. dispatch_eval. reflexivity.
Qed.

Lemma failed_hangup_is_reported_as_result_witness :
  sent (emitted (onToolInvocation wire_env (VObj (invocation_of "avrHangup"))
                                  initial)) =
    [ obj [ ("type", VStr "client_tool_result");
            ("result",
             VStr "Error during hangup: connect ECONNREFUSED 127.0.0.1:6006");
            ("responseType", VStr "tool-response");
            ("invocationId", VStr "inv-1") ] ].
Proof.
  exact (failed_hangup_is_reported_as_result
           wire_env VUndefined refused_axios_post (invocation_of "avrHangup")
           "http://127.0.0.1:6006"
           (VErr "AxiosError" "connect ECONNREFUSED 127.0.0.1:6006")
           (VStr "connect ECONNREFUSED 127.0.0.1:6006") initial
           eq_refl eq_refl eq_refl eq_refl eq_refl eq_refl).
Defined.
